(** * ENC_Project_demo: the publisher pipeline and the query service

    A shallow embedding of [process_data.py] (class [WebsiteDataProcessor])
    and [app.py] (the Flask query service), and the properties of the
    catalog resolver, the JSON reshaper, the publisher pipeline and the
    query routes.

    Conventions of the embedding.
    - A Python [str] is a [string]: the sequence of its UTF-8 bytes.  Prefix
      and suffix tests and lexicographic comparison of code points agree
      with the same operations on UTF-8 bytes.
    - A raised exception is the [Raise] case of [result].
    - The file system that is read is a tree of [node]s addressed by a list
      of components; [os.path.join dir name] is [dir ++ [name]].
    - The tree that is written is an [out_tree]; the pipeline threads it
      through a state-and-exception monad [M].
    - [os.path.splitext] and the [json] module belong to the platform, they
      are interfaces ([OsPath], [Json]) with the instances given below. *)

From Stdlib Require Import ZArith Ascii String List.
From stdpp Require Import base option list sorting strings gmap.

Set Warnings "-register-all".

Local Open Scope string_scope.
Local Open Scope list_scope.
Local Open Scope Z_scope.

(** ** Exceptions *)

Inductive exn :=
  | OSError         (* FileNotFoundError, NotADirectoryError, IsADirectoryError *)
  | ValueError      (* json.JSONDecodeError, UnicodeDecodeError *)
  | AttributeError
  | TypeError
  | IndexError.

Inductive result (A : Type) :=
  | Ok (a : A)
  | Raise (e : exn).
Arguments Ok {A} a.
Arguments Raise {A} e.

(** [x ← r; k] runs [k] on the value of [r] and propagates what [r]
    raises. *)
Global Instance result_ret : MRet result := fun A a => Ok a.
Global Instance result_bind : MBind result := fun A B f r =>
  match r with
  | Ok a => f a
  | Raise e => Raise e
  end.

(** ** Python strings *)

(** [s.startswith(prefix)] *)
Definition startswith (s prefix : string) : bool := String.prefix prefix s.

(** [s[i:]] and [s[:i]] for [0 <= i]. *)
Definition slice_from (s : string) (i : Z) : string :=
  String.substring (Z.to_nat i) (String.length s - Z.to_nat i) s.
Definition slice_to (s : string) (i : Z) : string :=
  String.substring 0 (Z.to_nat i) s.

(** [s.endswith(suffix)]: the last [len(suffix)] characters of [s] are
    [suffix]. *)
Definition endswith (s suffix : string) : bool :=
  (String.length suffix <=? String.length s)%nat
  && String.eqb
       (slice_from s (Z.of_nat (String.length s - String.length suffix)))
       suffix.

(** [s.endswith((x1, ..., xn))]: some member of the tuple is a suffix. *)
Definition endswith_any (s : string) (suffixes : list string) : bool :=
  existsb (endswith s) suffixes.

(** [str.lower] on one character: the letters [A]..[Z] move to [a]..[z].
    Bytes of a non-ASCII character are left as they are; no character
    outside ASCII lowers to one of the characters of the extensions tested
    below. *)
Definition lower_ascii (c : ascii) : ascii :=
  let n := N_of_ascii c in
  if ((65 <=? n) && (n <=? 90))%N then ascii_of_N (n + 32) else c.

Fixpoint lower (s : string) : string :=
  match s with
  | EmptyString => EmptyString
  | String c s' => String (lower_ascii c) (lower s')
  end.

(** [s.rfind(c)] for a one-character [c]: the highest index of [c] in [s],
    or [-1]. *)
Fixpoint rfind_from (s : string) (c : ascii) (i : Z) (found : Z) : Z :=
  match s with
  | EmptyString => found
  | String a s' => rfind_from s' c (i + 1) (if Ascii.eqb a c then i else found)
  end.
Definition rfind (s : string) (c : ascii) : Z := rfind_from s c 0 (-1).

(** [sorted(xs)] on strings: the ascending rearrangement of [xs]. *)
Definition sorted (xs : list string) : list string :=
  merge_sort String.le xs.

(** [xs[-1]] *)
Definition index_last {A} (xs : list A) : result A :=
  match last xs with
  | Some x => Ok x
  | None => Raise IndexError
  end.

(** ** [os.path.splitext] *)

(** [genericpath._splitext(p, sep, altsep, extsep)]. The loop skips the
    leading dots of the last component; [fuel] bounds its iterations by the
    distance from [filenameIndex] to [dotIndex]. *)
Fixpoint _splitext_loop (p : string) (extsep : ascii) (dotIndex : Z)
    (filenameIndex : Z) (fuel : nat) : option (string * string) :=
  match fuel with
  | O => None
  | S fuel' =>
      if filenameIndex <? dotIndex then
        if negb (String.eqb (String.substring (Z.to_nat filenameIndex) 1 p)
                            (String extsep EmptyString))
        then Some (slice_to p dotIndex, slice_from p dotIndex)
        else _splitext_loop p extsep dotIndex (filenameIndex + 1) fuel'
      else None
  end.

Definition _splitext (p : string) (sep : ascii) (altsep : option ascii)
    (extsep : ascii) : string * string :=
  let sepIndex := rfind p sep in
  let sepIndex :=
    match altsep with
    | Some altsep => Z.max sepIndex (rfind p altsep)
    | None => sepIndex
    end in
  let dotIndex := rfind p extsep in
  let no_ext := (p, slice_to p 0) in
  if dotIndex >? sepIndex then
    match _splitext_loop p extsep dotIndex (sepIndex + 1)
            (Z.to_nat (dotIndex - (sepIndex + 1))) with
    | Some r => r
    | None => no_ext
    end
  else no_ext.

(** The part of [os.path] the program uses. *)
Class OsPath := { splitext : string → string * string }.

Definition posixpath : OsPath :=
  {| splitext p := _splitext p "/"%char None "."%char |}.
Definition ntpath : OsPath :=
  {| splitext p := _splitext p "\"%char (Some "/"%char) "."%char |}.

(** ** JSON documents *)

(** A parsed document. An object is the list of its items in insertion
    order, as a Python [dict] keeps them; a float is held by its [repr]. *)
Inductive JSON :=
  | JNull
  | JBool (b : bool)
  | JInt (n : Z)
  | JFloat (repr : string)
  | JStr (s : string)
  | JArr (items : list JSON)
  | JObj (items : list (string * JSON)).

(** The part of the [json] module the program uses. [json_load] is
    [json.load] on the text of a file, [None] when it raises;
    [json_dump ensure_ascii v] is the text [json.dump(v, f, indent=2,
    ensure_ascii=...)] writes. *)
Class Json := {
  json_load : string → option JSON;
  json_dump : bool → JSON → string
}.

(** [k in d] for a dict [d] *)
Definition dict_contains (d : list (string * JSON)) (k : string) : bool :=
  existsb (fun kv => String.eqb kv.1 k) d.

(** [d.get(k, default)] *)
Definition dict_get (d : list (string * JSON)) (k : string) (default : JSON)
    : JSON :=
  match find (fun kv => String.eqb kv.1 k) d with
  | Some kv => kv.2
  | None => default
  end.

(** [d[k]] seen as an optional value *)
Definition dict_lookup (d : list (string * JSON)) (k : string) : option JSON :=
  snd <$> find (fun kv => String.eqb kv.1 k) d.

(** [del d[k]] for a key that is present *)
Definition dict_del (d : list (string * JSON)) (k : string)
    : list (string * JSON) :=
  List.filter (fun kv => negb (String.eqb kv.1 k)) d.

(** [x in s] for strings: [x] occurs in [s] as a substring. *)
Fixpoint str_contains (s x : string) : bool :=
  String.prefix x s
  || match s with
     | EmptyString => false
     | String _ s' => str_contains s' x
     end.

(** [json_data.get(k, default)]: only a dict has the method. *)
Definition py_get (json_data : JSON) (k : string) (default : JSON)
    : result JSON :=
  match json_data with
  | JObj d => Ok (dict_get d k default)
  | _ => Raise AttributeError
  end.

(** [k in json_data] for a string [k]: key membership in a dict, element
    membership in a list, substring test in a string; the other values are
    not iterable. *)
Definition py_contains (json_data : JSON) (k : string) : result bool :=
  match json_data with
  | JObj d => Ok (dict_contains d k)
  | JArr l =>
      Ok (existsb (fun v => match v with JStr s => String.eqb s k | _ => false end) l)
  | JStr s => Ok (str_contains s k)
  | _ => Raise TypeError
  end.

(** [del json_data[k]] for a string [k], reached only when
    [k in json_data]. *)
Definition py_delitem (json_data : JSON) (k : string) : result JSON :=
  match json_data with
  | JObj d => Ok (JObj (dict_del d k))
  | _ => Raise TypeError
  end.

(** ** The file system that is read *)

Inductive node :=
  | File (content : string)
  | Dir (entries : list (string * node)).

Definition path := list string.

Definition find_entry (name : string) (entries : list (string * node))
    : option node :=
  snd <$> find (fun e => String.eqb e.1 name) entries.

Fixpoint lookup_path (fs : node) (p : path) : option node :=
  match p with
  | [] => Some fs
  | name :: p' =>
      match fs with
      | Dir entries =>
          match find_entry name entries with
          | Some n => lookup_path n p'
          | None => None
          end
      | File _ => None
      end
  end.

(** [os.listdir(p)] *)
Definition listdir (fs : node) (p : path) : result (list string) :=
  match lookup_path fs p with
  | Some (Dir entries) => Ok (map fst entries)
  | _ => Raise OSError
  end.

(** [os.path.isdir(p)] *)
Definition isdir (fs : node) (p : path) : bool :=
  match lookup_path fs p with
  | Some (Dir _) => true
  | _ => false
  end.

(** [open(p, 'r').read()] *)
Definition read_file (fs : node) (p : path) : result string :=
  match lookup_path fs p with
  | Some (File content) => Ok content
  | _ => Raise OSError
  end.

(** [os.path.join(dir, name)] for a [name] that is one component. *)
Definition os_path_join (dir : path) (name : string) : path := dir ++ [name].

(** ** Python values and truth *)

(** What a method hands back to its caller: [None], or the numbers and
    tuples a caller may expect of it. *)
Inductive pyvalue :=
  | PyNone
  | PyInt (n : Z)
  | PyTuple (items : list pyvalue).

(** [bool(x)] for [x] a file name or [None]: [None] and the empty string
    are false. *)
Definition truthy (x : option string) : bool :=
  match x with
  | None => false
  | Some s => negb (String.eqb s EmptyString)
  end.

(** A Python list of strings as a JSON array. *)
Definition json_of_strs (xs : list string) : JSON := JArr (JStr <$> xs).

(** ** The tree that is written *)

(** The output tree: the regular files with their content, and the
    directories. The operations below are the ones the pipeline performs on
    it; they overwrite and always succeed. *)
Record out_tree := OutTree {
  files : gmap path string;
  dirs : gset path
}.

(** State-and-exception monad of the pipeline: a step returns a value or
    raises, and in both cases leaves an output tree behind. *)
Definition M (A : Type) : Type := out_tree → result A * out_tree.

Global Instance M_ret : MRet M := fun A a s => (Ok a, s).
Global Instance M_bind : MBind M := fun A B f m s =>
  match m s with
  | (Ok a, s') => f a s'
  | (Raise e, s') => (Raise e, s')
  end.

(** A step that only reads, or computes. *)
Definition lift {A} (r : result A) : M A := fun s => (r, s).

(** The directory [p] with its ancestors, outermost first. *)
Definition ancestors_and_self (p : path) : list path :=
  (fun n => take n p) <$> seq 1 (length p).

(** [os.makedirs(p, exist_ok=True)] *)
Definition makedirs (p : path) : M unit := fun s =>
  (Ok (), {| files := files s;
             dirs := list_to_set (ancestors_and_self p) ∪ dirs s |}).

(** [with open(p, 'w') as f: f.write(content)] *)
Definition write_file (p : path) (content : string) : M unit := fun s =>
  (Ok (), {| files := <[p := content]> (files s); dirs := dirs s |}).

(** [shutil.copy2(src, dst)], [src] in the tree that is read and [dst] a
    file path in the tree that is written. *)
Definition copy2 (fs : node) (src dst : path) : M unit :=
  content ← lift (read_file fs src);
  write_file dst content.

(** [for x in xs: body(x)] *)
Fixpoint for_each {A} (xs : list A) (body : A → M unit) : M unit :=
  match xs with
  | [] => mret ()
  | x :: xs' => body x;; for_each xs' body
  end.

(** [json.load(f)] on the text read from [f]. *)
Definition load_json `{!Json} (text : string) : result JSON :=
  match json_load text with
  | Some v => Ok v
  | None => Raise ValueError
  end.

(** ** process_data.py *)

Module process_data.

Record WebsiteDataProcessor := {
  source_path : path;
  output_path : path;
  image_dir : path;
  results_dir : path;
  keywords_dir : path;
  output_data_dir : path;
  output_images_dir : path;
  output_results_dir : path;
  output_keywords_dir : path
}.

(** [WebsiteDataProcessor.__init__] *)
Definition __init__ (source_path output_path : path) : WebsiteDataProcessor :=
  let output_data_dir := os_path_join output_path "data" in
  {| source_path := source_path;
     output_path := output_path;
     image_dir := os_path_join source_path "raw_images";
     results_dir := os_path_join source_path "raw_results";
     keywords_dir :=
       os_path_join (os_path_join source_path "keyword_identification") "gpt-4o";
     output_data_dir := output_data_dir;
     output_images_dir := os_path_join output_data_dir "images";
     output_results_dir := os_path_join output_data_dir "results";
     output_keywords_dir := os_path_join output_data_dir "keywords" |}.

(** [process_json_content(json_data, is_keyword)]. The first component is
    what the call returns or raises; the second is the object bound to
    [json_data] once the call is over. In the [else] branch the object
    returned is the argument itself, after the deletion. *)
Definition process_json_content (json_data : JSON) (is_keyword : bool)
    : result JSON * JSON :=
  if is_keyword then
    (ocr_results ← py_get json_data "ocr_results" (JObj []);
     identified_keywords ← py_get json_data "identified_keywords" (JObj []);
     statistics ← py_get json_data "statistics" (JObj []);
     mret (JObj [("ocr_results", ocr_results);
                 ("identified_keywords", identified_keywords);
                 ("statistics", statistics)]),
     json_data)
  else
    match py_contains json_data "metadata" with
    | Raise e => (Raise e, json_data)
    | Ok true =>
        match py_delitem json_data "metadata" with
        | Ok json_data' => (Ok json_data', json_data')
        | Raise e => (Raise e, json_data)
        end
    | Ok false => (Ok json_data, json_data)
    end.

Section methods.
Context `{!OsPath, !Json}.
(** The file system the run reads. *)
Variable fs : node.
Variable self : WebsiteDataProcessor.

Definition create_directory_structure : M pyvalue :=
  let dirs_to_create :=
    [output_data_dir self; output_images_dir self;
     output_results_dir self; output_keywords_dir self] in
  for_each dirs_to_create (fun dir_path => makedirs dir_path);;
  mret PyNone.

Definition get_models : result (list string) :=
  entries ← listdir fs (results_dir self);
  let models :=
    List.filter (fun d => isdir fs (os_path_join (results_dir self) d))
      entries in
  mret (sorted models).

Definition get_image_files : result (list string) :=
  entries ← listdir fs (image_dir self);
  mret (sorted
          (List.filter
             (fun f => endswith_any (lower f) [".jpg"; ".jpeg"; ".png"])
             entries)).

Definition get_latest_json (base_name : string) (model_dir : path)
    : result (option string) :=
  entries ← listdir fs model_dir;
  let json_files := List.filter (fun f => startswith f base_name) entries in
  match json_files with
  | _ :: _ => f ← index_last (sorted json_files); mret (Some f)
  | [] => mret None
  end.

Definition process_files : M pyvalue :=
  models ← lift get_models;
  images ← lift get_image_files;
  write_file (os_path_join (output_data_dir self) "models.json")
    (json_dump true (json_of_strs models));;
  write_file (os_path_join (output_data_dir self) "files.json")
    (json_dump true (json_of_strs images));;
  for_each images (fun image =>
    let src_image := os_path_join (image_dir self) image in
    let dst_image := os_path_join (output_images_dir self) image in
    copy2 fs src_image dst_image;;
    let base_name := (splitext image).1 in
    keyword_json ← lift (get_latest_json base_name (keywords_dir self));
    match keyword_json with
    | Some keyword_file =>
        if truthy keyword_json then
          let src_keyword := os_path_join (keywords_dir self) keyword_file in
          text ← lift (read_file fs src_keyword);
          keyword_data ← lift (load_json text);
          processed_keyword_data ←
            lift (process_json_content keyword_data true).1;
          let dst_keyword :=
            os_path_join (output_keywords_dir self) (base_name +:+ ".json") in
          write_file dst_keyword (json_dump false processed_keyword_data)
        else mret ()
    | None => mret ()
    end;;
    for_each models (fun model =>
      let model_dir := os_path_join (results_dir self) model in
      json_file ← lift (get_latest_json base_name model_dir);
      match json_file with
      | Some json_name =>
          if truthy json_file then
            let output_model_dir :=
              os_path_join (output_results_dir self) model in
            makedirs output_model_dir;;
            let src_json := os_path_join model_dir json_name in
            text ← lift (read_file fs src_json);
            model_data ← lift (load_json text);
            processed_model_data ←
              lift (process_json_content model_data false).1;
            let dst_json :=
              os_path_join output_model_dir (base_name +:+ ".json") in
            write_file dst_json (json_dump false processed_model_data)
          else mret ()
      | None => mret ()
      end));;
  mret PyNone.

(** [process]: an exception of either step is logged and raised again. *)
Definition process : M pyvalue :=
  create_directory_structure;;
  process_files;;
  mret PyNone.
End methods.

End process_data.

(** ** app.py *)

Module app.

Definition IMAGE_FOLDER : path :=
  ["E:"; "ENC_analysis"; "ENC_website"; "data"; "raw_images"].
Definition RESULTS_FOLDER : path :=
  ["E:"; "ENC_analysis"; "ENC_website"; "data"; "results"].

(** What a view function returns: a status and a JSON body. A view that
    raises makes the framework answer with a server error. *)
Record response := Response { status : Z; body : JSON }.

(** [jsonify(v)] and [jsonify(v), code] *)
Definition jsonify (v : JSON) : response := {| status := 200; body := v |}.
Definition with_status (r : response) (code : Z) : response :=
  {| status := code; body := body r |}.

Section views.
Context `{!OsPath, !Json}.
(** The file system the service reads. *)
Variable fs : node.

Definition get_available_models : result (list string) :=
  entries ← listdir fs RESULTS_FOLDER;
  mret (List.filter (fun d => isdir fs (os_path_join RESULTS_FOLDER d)) entries).

Definition get_latest_json (image_filename model : string)
    : result (option string) :=
  let base_name := (splitext image_filename).1 in
  let json_folder := os_path_join RESULTS_FOLDER model in
  entries ← listdir fs json_folder;
  let json_files := List.filter (fun f => startswith f base_name) entries in
  match json_files with
  | [] => mret None
  | _ :: _ => f ← index_last (sorted json_files); mret (Some f)
  end.

(** [GET /api/models] *)
Definition get_models : result response :=
  models ← get_available_models;
  mret (jsonify (json_of_strs models)).

(** [GET /api/files] *)
Definition get_files : result response :=
  entries ← listdir fs IMAGE_FOLDER;
  let image_files := List.filter (fun f => endswith f ".jpg") entries in
  mret (jsonify (json_of_strs (sorted image_files))).

(** [GET /api/json/<model>/<filename>] *)
Definition get_json (model filename : string) : result response :=
  models ← get_available_models;
  if negb (bool_decide (model ∈ models)) then
    mret (with_status (jsonify (JObj [("error", JStr "Invalid model")])) 404)
  else
    json_filename ← get_latest_json filename model;
    match json_filename with
    | Some json_name =>
        if negb (truthy json_filename) then
          mret (with_status
                  (jsonify (JObj [("error", JStr "JSON not found")])) 404)
        else
          text ← read_file fs
                   (os_path_join (os_path_join RESULTS_FOLDER model) json_name);
          v ← load_json text;
          mret (jsonify v)
    | None =>
        mret (with_status
                (jsonify (JObj [("error", JStr "JSON not found")])) 404)
    end.
End views.

End app.

(** ** A platform and a source tree for the examples *)

Definition dquote : string := String (ascii_of_nat 34) EmptyString.
Definition newline : string := String (ascii_of_nat 10) EmptyString.

Definition json_quote (s : string) : string := dquote +:+ s +:+ dquote.

Fixpoint json_indent (level : nat) : string :=
  match level with
  | O => EmptyString
  | S n => "  " +:+ json_indent n
  end.

Fixpoint join_lines (sep : string) (xs : list string) : string :=
  match xs with
  | [] => EmptyString
  | [x] => x
  | x :: xs' => x +:+ sep +:+ join_lines sep xs'
  end.

(** The text [json.dumps(v, indent=2)] gives for a document whose strings
    need no escaping. *)
Fixpoint demo_dumps (level : nat) (v : JSON) : string :=
  let block (opening closing : string) (rows : list string) :=
    match rows with
    | [] => opening +:+ closing
    | _ => opening +:+ newline +:+ json_indent (S level)
           +:+ join_lines ("," +:+ newline +:+ json_indent (S level)) rows
           +:+ newline +:+ json_indent level +:+ closing
    end in
  match v with
  | JNull => "null"
  | JBool true => "true"
  | JBool false => "false"
  | JInt n => pretty.pretty n
  | JFloat r => r
  | JStr s => json_quote s
  | JArr items => block "[" "]" (map (demo_dumps (S level)) items)
  | JObj items =>
      block "{" "}"
        (map (fun kv => json_quote (fst kv) +:+ ": " +:+ demo_dumps (S level) (snd kv))
           items)
  end.

Definition doc_a_20240101 : JSON :=
  JObj [("metadata", JObj [("run", JInt 1)]); ("labels", JArr [JStr "buoy"])].
Definition doc_a_20240102 : JSON :=
  JObj [("metadata", JObj [("run", JInt 2)]);
        ("labels", JArr [JStr "buoy"; JStr "wreck"])].
Definition doc_a_2024 : JSON :=
  JObj [("statistics", JObj [("n", JInt 5)])].

Definition demo_documents : list JSON :=
  [doc_a_20240101; doc_a_20240102; doc_a_2024].

(** A [json] module for the examples: it prints with [demo_dumps] and
    reads back the texts of [demo_documents]. *)
Definition demo_json : Json :=
  {| json_load text :=
       find (fun v => String.eqb (demo_dumps 0 v) text) demo_documents;
     json_dump _ v := demo_dumps 0 v |}.

(** The scenario of the specification: images [a.jpg] and [b.png], model
    [m1] with two results for [a], model [m2] empty, one annotation. *)
Definition demo_data : node :=
  Dir [("raw_images", Dir [("b.png", File "PNG-b"); ("a.jpg", File "JPEG-a")]);
       ("raw_results",
        Dir [("m2", Dir []);
             ("m1", Dir [("a_20240101.json", File (demo_dumps 0 doc_a_20240101));
                         ("a_20240102.json", File (demo_dumps 0 doc_a_20240102))]);
             ("notes.txt", File "not a model")]);
       ("results",
        Dir [("m2", Dir []);
             ("m1", Dir [("a_20240101.json", File (demo_dumps 0 doc_a_20240101));
                         ("a_20240102.json", File (demo_dumps 0 doc_a_20240102))])]);
       ("keyword_identification",
        Dir [("gpt-4o", Dir [("a_2024.json", File (demo_dumps 0 doc_a_2024))])])].

(** [inside p n]: the tree whose path [p] leads to [n]. *)
Definition inside (p : path) (n : node) : node :=
  foldr (fun name inner => Dir [(name, inner)]) n p.

Definition demo_fs : node :=
  inside ["E:"; "ENC_analysis"; "ENC_website"; "data"] demo_data.

Definition demo_processor : process_data.WebsiteDataProcessor :=
  process_data.__init__ ["E:"; "ENC_analysis"; "ENC_website"; "data"]
                        ["E:"; "ENC_analysis"; "ENC_website_github"].

Definition empty_out : out_tree := {| files := ∅; dirs := ∅ |}.


(** ** Properties stated of the program *)

(** Every entry name of every directory of the tree is non-empty, as the
    names an operating system lists are. *)
Fixpoint wf_fs (n : node) : bool :=
  match n with
  | File _ => true
  | Dir entries =>
      forallb (fun e => negb (String.eqb (fst e) EmptyString) && wf_fs (snd e)) entries
  end.

(** [r] is the latest artifact for [base_name] among [entries]: the
    greatest name that starts with [base_name], or [None] when no name
    does. *)
Definition latest_of (entries : list string) (base_name : string)
    (r : option string) : Prop :=
  match r with
  | Some f =>
      f ∈ entries ∧ startswith f base_name = true ∧
      ∀ g, g ∈ entries → startswith g base_name = true → String.le g f
  | None => ∀ g, g ∈ entries → startswith g base_name = false
  end.

(** A directory of images for the listing routes: two lower-case [.jpg]
    and [.png] names, an upper-case [.JPG], a [.jpeg], and a text file. *)
Definition listing_fs : node :=
  inside app.IMAGE_FOLDER
    (Dir [("b.png", File "PNG-b"); ("C.JPG", File "JPEG-C");
          ("a.jpg", File "JPEG-a"); ("d.jpeg", File "JPEG-d");
          ("notes.txt", File "text")]).

(** The files after the writes [ws], first to last. *)
Definition apply_writes (ws : list (path * string)) (m : gmap path string)
    : gmap path string :=
  foldl (fun m w => <[w.1 := w.2]> m) m ws.

(** A step is write-only when its outcome and what it writes are settled
    before the output tree is known: it reads nothing from that tree. *)
Definition write_only {A} (m : M A) : Prop :=
  ∃ (r : result A) (ws : list (path * string)) (ds : gset path),
    ∀ s, m s = (r, {| files := apply_writes ws (files s); dirs := ds ∪ dirs s |}).

(** A step preserves the file at [p] when it leaves that path as it found
    it. *)
Definition preserves_file {A} (p : path) (m : M A) : Prop :=
  ∀ s, files (m s).2 !! p = files s !! p.

(** A results folder whose model [m1] holds a text that is not JSON, and a
    directory where a result is expected. *)
Definition broken_results_fs : node :=
  inside app.RESULTS_FOLDER
    (Dir [("m1", Dir [("a_1.json", File "not json");
                      ("b_1.json", Dir [])])]).

(** A step keeps [Q] when it leaves an output tree that satisfies [Q]
    each time it starts from one, however the step ends. *)
Definition keeps {A} (Q : out_tree → Prop) (m : M A) : Prop :=
  ∀ s, Q s → Q (m s).2.

(** A step ensures [Q] when every run of it that completes leaves an
    output tree that satisfies [Q]. *)
Definition ensures {A} (Q : out_tree → Prop) (m : M A) : Prop :=
  ∀ s a s', m s = (Ok a, s') → Q s'.


(** The output tree holds the file [p] with content [content]. *)
Definition file_is (p : path) (content : string) (s : out_tree) : Prop :=
  files s !! p = Some content.

(** The steps of the loop of [process_files], named: what is done with the
    annotation resolved for an image, what is done for one model, and the
    whole body of the loop for one image. *)
Definition write_keyword `{!OsPath, !Json} (fs : node)
    (self : process_data.WebsiteDataProcessor) (base_name : string)
    (keyword_json : option string) : M unit :=
  match keyword_json with
  | Some keyword_file =>
      if truthy keyword_json then
        let src_keyword :=
          os_path_join (process_data.keywords_dir self) keyword_file in
        text ← lift (read_file fs src_keyword);
        keyword_data ← lift (load_json text);
        processed_keyword_data ←
          lift (process_data.process_json_content keyword_data true).1;
        let dst_keyword :=
          os_path_join (process_data.output_keywords_dir self)
            (base_name +:+ ".json") in
        write_file dst_keyword (json_dump false processed_keyword_data)
      else mret ()
  | None => mret ()
  end.

Definition write_result `{!OsPath, !Json} (fs : node)
    (self : process_data.WebsiteDataProcessor) (base_name model : string)
    : M unit :=
  let model_dir := os_path_join (process_data.results_dir self) model in
  json_file ← lift (process_data.get_latest_json fs base_name model_dir);
  match json_file with
  | Some json_name =>
      if truthy json_file then
        let output_model_dir :=
          os_path_join (process_data.output_results_dir self) model in
        makedirs output_model_dir;;
        let src_json := os_path_join model_dir json_name in
        text ← lift (read_file fs src_json);
        model_data ← lift (load_json text);
        processed_model_data ←
          lift (process_data.process_json_content model_data false).1;
        let dst_json :=
          os_path_join output_model_dir (base_name +:+ ".json") in
        write_file dst_json (json_dump false processed_model_data)
      else mret ()
  | None => mret ()
  end.

Definition publish_image `{!OsPath, !Json} (fs : node)
    (self : process_data.WebsiteDataProcessor) (models : list string)
    (image : string) : M unit :=
  copy2 fs (os_path_join (process_data.image_dir self) image)
    (os_path_join (process_data.output_images_dir self) image);;
  keyword_json ←
    lift (process_data.get_latest_json fs (splitext image).1
            (process_data.keywords_dir self));
  write_keyword fs self (splitext image).1 keyword_json;;
  for_each models (write_result fs self (splitext image).1).

(** * Proofs *)

(** ** [os.path.splitext] *)

(** The loop of [_splitext] is given all the iterations it can make: more
    fuel than the distance from [filenameIndex] to [dotIndex] changes
    nothing. *)
Lemma _splitext_loop_fuel (p : string) (extsep : ascii) (dotIndex : Z)
    (fuel : nat) : ∀ filenameIndex : Z,
  (Z.to_nat (dotIndex - filenameIndex) ≤ fuel)%nat →
  _splitext_loop p extsep dotIndex filenameIndex fuel
  = _splitext_loop p extsep dotIndex filenameIndex
      (Z.to_nat (dotIndex - filenameIndex)).
Proof.
  induction fuel as [|fuel IH]; intros filenameIndex Hfuel.
  - by replace (Z.to_nat (dotIndex - filenameIndex)) with O by lia.
  - destruct (Z.ltb_spec filenameIndex dotIndex) as [Hlt|Hge].
    + replace (Z.to_nat (dotIndex - filenameIndex))
        with (S (Z.to_nat (dotIndex - (filenameIndex + 1)))) by lia.
      simpl. apply Z.ltb_lt in Hlt. rewrite Hlt.
      destruct (negb _); [done|]. apply IH. lia.
    + replace (Z.to_nat (dotIndex - filenameIndex)) with O by lia.
      simpl. apply Z.ltb_ge in Hge. by rewrite Hge.
Qed.

Example splitext_examples :
  @splitext posixpath "a.jpg" = ("a", ".jpg") ∧
  @splitext posixpath "a.b.jpg" = ("a.b", ".jpg") ∧
  @splitext posixpath ".hidden" = (".hidden", EmptyString) ∧
  @splitext posixpath "noext" = ("noext", EmptyString) ∧
  @splitext ntpath "a.jpg" = ("a", ".jpg").
Proof. repeat split. Qed.

(** ** [sorted] and its last element *)

Lemma sorted_perm (xs : list string) : sorted xs ≡ₚ xs.
Proof. apply merge_sort_Permutation. Qed.

Lemma sorted_StronglySorted (xs : list string) :
  StronglySorted String.le (sorted xs).
Proof. apply StronglySorted_merge_sort; apply _. Qed.

Lemma elem_of_sorted (x : string) (xs : list string) : x ∈ sorted xs ↔ x ∈ xs.
Proof. by rewrite sorted_perm. Qed.

Lemma index_last_sorted (x : string) (xs : list string) :
  ∃ m, index_last (sorted (x :: xs)) = Ok m ∧ m ∈ x :: xs ∧
       ∀ y, y ∈ x :: xs → String.le y m.
Proof.
  unfold index_last.
  destruct (last (sorted (x :: xs))) as [m|] eqn:Hlast.
  - exists m. apply last_Some in Hlast as [l' Hl'].
    assert (Hm : m ∈ sorted (x :: xs)) by (rewrite Hl'; set_solver).
    split; [done|]. split; [by apply elem_of_sorted|].
    intros y Hy%elem_of_sorted.
    pose proof (sorted_StronglySorted (x :: xs)) as Hs.
    rewrite Hl' in Hs, Hy.
    apply elem_of_app in Hy as [Hy|Hy].
    + eapply StronglySorted_app_1_elem_of; [done..|set_solver].
    + apply list_elem_of_singleton in Hy as ->. done.
  - apply last_None in Hlast.
    pose proof (sorted_perm (x :: xs)) as Hp. rewrite Hlast in Hp.
    by apply Permutation_nil_cons in Hp.
Qed.

(** The selection both resolvers make from a listing. *)
Lemma select_latest (entries : list string) (base_name : string) :
  ∃ r,
    match List.filter (fun f => startswith f base_name) entries with
    | [] => mret None
    | json_files => f ← index_last (sorted json_files); mret (Some f)
    end = Ok r ∧ latest_of entries base_name r ∧
    (r = None ↔ ∀ g, g ∈ entries → startswith g base_name = false).
Proof.
  destruct (List.filter _ entries) as [|x xs] eqn:Hf.
  - assert (Hnone : ∀ g, g ∈ entries → startswith g base_name = false).
    { intros g Hg. destruct (startswith g base_name) eqn:Hs; [|done].
      assert (Hin : In g (List.filter (fun f => startswith f base_name) entries))
        by (apply filter_In; split; [by apply list_elem_of_In|done]).
      rewrite Hf in Hin. destruct Hin. }
    exists None. by split_and!.
  - destruct (index_last_sorted x xs) as (m & -> & Hm & Hmax).
    assert (Hsub : ∀ g, g ∈ x :: xs ↔ g ∈ entries ∧ startswith g base_name = true).
    { intros g. rewrite <- Hf, !list_elem_of_In.
      exact (filter_In (fun f => startswith f base_name) g entries). }
    exists (Some m). split; [done|]. split.
    + simpl. apply Hsub in Hm as [??]. split_and!; [done..|].
      intros g ??. apply Hmax, Hsub. done.
    + split; [done|]. intros Hnone. apply Hsub in Hm as [Hin Hs].
      rewrite (Hnone _ Hin) in Hs. done.
Qed.

(** ** The catalog resolver *)

Lemma pipeline_get_latest_json (fs : node) (entries : list string)
    (base_name : string) (model_dir : path) :
  listdir fs model_dir = Ok entries →
  ∃ r, process_data.get_latest_json fs base_name model_dir = Ok r ∧
       latest_of entries base_name r ∧
       (r = None ↔ ∀ g, g ∈ entries → startswith g base_name = false).
Proof.
  intros Hls. unfold process_data.get_latest_json. rewrite Hls. simpl.
  destruct (select_latest entries base_name) as (r & Hr & Hspec).
  exists r. split; [|done]. rewrite <- Hr. by destruct (List.filter _ _).
Qed.

Lemma service_get_latest_json `{!OsPath} (fs : node) (entries : list string)
    (image_filename model : string) :
  listdir fs (os_path_join app.RESULTS_FOLDER model) = Ok entries →
  ∃ r, app.get_latest_json fs image_filename model = Ok r ∧
       latest_of entries (splitext image_filename).1 r ∧
       (r = None ↔
        ∀ g, g ∈ entries → startswith g (splitext image_filename).1 = false).
Proof.
  intros Hls. unfold app.get_latest_json. rewrite Hls. simpl.
  destruct (select_latest entries (splitext image_filename).1)
    as (r & Hr & Hspec).
  exists r. split; [|done]. rewrite <- Hr. by destruct (List.filter _ _).
Qed.

(** C1. For every directory listing and base name, [get_latest_json] of
    the pipeline, and of the query service on a file name with that base
    name, returns the lexicographically greatest entry that starts with the
    base name, and returns [None] exactly when no entry starts with it. *)
Theorem get_latest_json_latest `{!OsPath} (fs : node) (entries : list string) :
  (∀ (base_name : string) (model_dir : path),
     listdir fs model_dir = Ok entries →
     ∃ r, process_data.get_latest_json fs base_name model_dir = Ok r ∧
          latest_of entries base_name r ∧
          (r = None ↔ ∀ g, g ∈ entries → startswith g base_name = false)) ∧
  (∀ (image_filename model : string),
     listdir fs (os_path_join app.RESULTS_FOLDER model) = Ok entries →
     ∃ r, app.get_latest_json fs image_filename model = Ok r ∧
          latest_of entries (splitext image_filename).1 r ∧
          (r = None ↔
           ∀ g, g ∈ entries → startswith g (splitext image_filename).1 = false)).
Proof.
  split.
  - intros. by apply pipeline_get_latest_json.
  - intros. by apply service_get_latest_json.
Qed.

Lemma get_latest_json_latest_witness :
  let entries := ["a_20240101.json"; "a_20240102.json"] in
  (∃ r, process_data.get_latest_json demo_fs "a"
          ["E:"; "ENC_analysis"; "ENC_website"; "data"; "raw_results"; "m1"]
        = Ok r ∧
        latest_of entries "a" r ∧
        (r = None ↔ ∀ g, g ∈ entries → startswith g "a" = false)) ∧
  (∃ r, @app.get_latest_json posixpath demo_fs "a.jpg" "m1" = Ok r ∧
        latest_of entries (@splitext posixpath "a.jpg").1 r ∧
        (r = None ↔
         ∀ g, g ∈ entries → startswith g (@splitext posixpath "a.jpg").1 = false)).
Proof.
  intros entries.
  destruct (@get_latest_json_latest posixpath demo_fs entries) as [Hpipeline Hservice].
  split.
  - apply Hpipeline. reflexivity.
  - apply Hservice. reflexivity.
Defined.

(** C8. The query service resolves with the logic of the pipeline: on an
    image file name whose base name is [base_name], [get_latest_json] of
    [app.py] returns what [get_latest_json] of [process_data.py] returns
    for [base_name] in the directory of the model. *)
Theorem get_latest_json_same_logic `{!OsPath} (fs : node)
    (base_name image_filename model : string) :
  (splitext image_filename).1 = base_name →
  app.get_latest_json fs image_filename model
  = process_data.get_latest_json fs base_name
      (os_path_join app.RESULTS_FOLDER model).
Proof.
  intros <-. unfold app.get_latest_json, process_data.get_latest_json.
  destruct (listdir fs _) as [entries|e]; simpl; [|done].
  by destruct (List.filter _ entries).
Qed.

Lemma get_latest_json_same_logic_witness :
  @app.get_latest_json posixpath demo_fs "a.jpg" "m1"
  = process_data.get_latest_json demo_fs "a"
      (os_path_join app.RESULTS_FOLDER "m1").
Proof. apply (@get_latest_json_same_logic posixpath). reflexivity. Defined.

(** ** The query routes *)

Lemma wf_fs_lookup_path (p : path) : ∀ (fs n : node),
  wf_fs fs = true → lookup_path fs p = Some n → wf_fs n = true.
Proof.
  induction p as [|name p IH]; intros fs n Hwf Hlook; simpl in Hlook.
  - by simplify_eq.
  - destruct fs as [|entries]; [done|].
    destruct (find_entry name entries) as [child|] eqn:Hfind; [|done].
    apply (IH child); [|done].
    unfold find_entry in Hfind.
    destruct (find _ entries) as [[name' child']|] eqn:Hf; simplify_eq/=.
    apply find_some in Hf as [Hin _].
    simpl in Hwf. rewrite forallb_forall in Hwf.
    apply Hwf in Hin. simpl in Hin. by apply andb_prop in Hin as [_ ?].
Qed.

Lemma wf_fs_listdir (fs : node) (p : path) (entries : list string) :
  wf_fs fs = true → listdir fs p = Ok entries → EmptyString ∉ entries.
Proof.
  unfold listdir. intros Hwf Hls.
  destruct (lookup_path fs p) as [[|es]|] eqn:Hlook; simplify_eq.
  apply wf_fs_lookup_path with (n := Dir es) in Hlook; [|done].
  simpl in Hlook. rewrite forallb_forall in Hlook.
  intros Hin. apply list_elem_of_In, in_map_iff in Hin as ([name child] & Hname & Hin).
  apply Hlook in Hin. simpl in *. subst name. done.
Qed.

Lemma isdir_listdir (fs : node) (p : path) :
  isdir fs p = true → ∃ entries, listdir fs p = Ok entries.
Proof.
  unfold isdir, listdir. destruct (lookup_path fs p) as [[|es]|]; eauto; done.
Qed.

Lemma get_available_models_isdir (fs : node) (models : list string) (model : string) :
  app.get_available_models fs = Ok models → model ∈ models →
  isdir fs (os_path_join app.RESULTS_FOLDER model) = true.
Proof.
  unfold app.get_available_models.
  destruct (listdir fs app.RESULTS_FOLDER) as [entries|]; simpl; [|done].
  intros [= <-] Hin. apply list_elem_of_In, filter_In in Hin as [_ ?]. done.
Qed.

(** C7. In a tree whose entry names are non-empty, [GET
    /api/json/<model>/<filename>] answers 404 [Invalid model] when the
    model is not among the discovered model directories; 404 [JSON not
    found] when the model is known and no entry of its directory starts
    with the base name of the file name; and otherwise there is a latest
    artifact, and the answer is the parsed content of that artifact. *)
Theorem get_json_responses `{!OsPath, !Json} (fs : node)
    (model filename : string) (models : list string) :
  wf_fs fs = true →
  app.get_available_models fs = Ok models →
  (model ∉ models →
     app.get_json fs model filename
     = Ok {| app.status := 404;
             app.body := JObj [("error", JStr "Invalid model")] |}) ∧
  (model ∈ models →
     ∃ entries,
       listdir fs (os_path_join app.RESULTS_FOLDER model) = Ok entries ∧
       ((∀ g, g ∈ entries → startswith g (splitext filename).1 = false) →
          app.get_json fs model filename
          = Ok {| app.status := 404;
                  app.body := JObj [("error", JStr "JSON not found")] |}) ∧
       (∀ g, g ∈ entries → startswith g (splitext filename).1 = true →
          ∃ latest,
            latest_of entries (splitext filename).1 (Some latest) ∧
            ∀ text v,
              read_file fs
                (os_path_join (os_path_join app.RESULTS_FOLDER model) latest)
              = Ok text →
              json_load text = Some v →
              app.get_json fs model filename
              = Ok {| app.status := 200; app.body := v |})).
Proof.
  intros Hwf Hmodels. split.
  - intros Hnotin. unfold app.get_json. rewrite Hmodels. simpl.
    by rewrite bool_decide_eq_false_2.
  - intros Hin.
    destruct (isdir_listdir fs (os_path_join app.RESULTS_FOLDER model))
      as [entries Hls]; [by eapply get_available_models_isdir|].
    exists entries. split; [done|].
    destruct (service_get_latest_json fs entries filename model Hls)
      as (r & Hr & Hlatest & Hnone).
    assert (Hstep : app.get_json fs model filename =
      match r with
      | Some json_name =>
          text ← read_file fs
                   (os_path_join (os_path_join app.RESULTS_FOLDER model) json_name);
          v ← load_json text;
          mret (app.jsonify v)
      | None =>
          Ok {| app.status := 404;
                app.body := JObj [("error", JStr "JSON not found")] |}
      end).
    { unfold app.get_json. rewrite Hmodels. simpl.
      rewrite bool_decide_eq_true_2 by done. simpl. rewrite Hr. simpl.
      destruct r as [json_name|]; [|done].
      destruct Hlatest as (Hname & _).
      assert (json_name ≠ EmptyString) as Hne
        by (intros ->; by eapply wf_fs_listdir).
      apply String.eqb_neq in Hne. unfold truthy. by rewrite Hne. }
    split.
    + intros Hno. apply Hnone in Hno. by rewrite Hstep, Hno.
    + intros g Hg Hstart. destruct r as [latest|].
      * exists latest. split; [done|]. intros text v Hread Hload.
        rewrite Hstep, Hread. simpl. unfold load_json. by rewrite Hload.
      * simpl in Hlatest. rewrite (Hlatest g Hg) in Hstart. done.
Qed.

Lemma get_json_responses_witness :
  ("m3" ∉ ["m2"; "m1"] →
     @app.get_json posixpath demo_json demo_fs "m3" "a.jpg"
     = Ok {| app.status := 404;
             app.body := JObj [("error", JStr "Invalid model")] |}) ∧
  ("m1" ∈ ["m2"; "m1"] →
     ∃ entries,
       listdir demo_fs (os_path_join app.RESULTS_FOLDER "m1") = Ok entries ∧
       ((∀ g, g ∈ entries → startswith g (@splitext posixpath "a.jpg").1 = false) →
          @app.get_json posixpath demo_json demo_fs "m1" "a.jpg"
          = Ok {| app.status := 404;
                  app.body := JObj [("error", JStr "JSON not found")] |}) ∧
       (∀ g, g ∈ entries → startswith g (@splitext posixpath "a.jpg").1 = true →
          ∃ latest,
            latest_of entries (@splitext posixpath "a.jpg").1 (Some latest) ∧
            ∀ text v,
              read_file demo_fs
                (os_path_join (os_path_join app.RESULTS_FOLDER "m1") latest)
              = Ok text →
              @json_load demo_json text = Some v →
              @app.get_json posixpath demo_json demo_fs "m1" "a.jpg"
              = Ok {| app.status := 200; app.body := v |})).
Proof.
  split.
  - apply (@get_json_responses posixpath demo_json demo_fs "m3" "a.jpg" ["m2"; "m1"]);
      reflexivity.
  - apply (@get_json_responses posixpath demo_json demo_fs "m1" "a.jpg" ["m2"; "m1"]);
      reflexivity.
Defined.

(** C10. The query ignores the extension of the requested file name: two
    file names with the same base name resolve the same artifact and get
    the same response from [GET /api/json/<model>/<filename>]. *)
Theorem get_json_ignores_extension `{!OsPath, !Json} (fs : node)
    (model filename1 filename2 : string) :
  (splitext filename1).1 = (splitext filename2).1 →
  app.get_latest_json fs filename1 model = app.get_latest_json fs filename2 model ∧
  app.get_json fs model filename1 = app.get_json fs model filename2.
Proof.
  intros Hbase.
  assert (Hsame : app.get_latest_json fs filename1 model
                  = app.get_latest_json fs filename2 model).
  { unfold app.get_latest_json. by rewrite Hbase. }
  split; [done|]. unfold app.get_json. by rewrite Hsame.
Qed.

Lemma get_json_ignores_extension_witness :
  @app.get_latest_json posixpath demo_fs "a.jpg" "m1"
  = @app.get_latest_json posixpath demo_fs "a.png" "m1" ∧
  @app.get_json posixpath demo_json demo_fs "m1" "a.jpg"
  = @app.get_json posixpath demo_json demo_fs "m1" "a.png".
Proof.
  apply (@get_json_ignores_extension posixpath demo_json). reflexivity.
Defined.

(** ** The JSON reshaper *)

Lemma dict_lookup_del (d : list (string * JSON)) (k k' : string) :
  dict_lookup (dict_del d k) k' = if decide (k' = k) then None else dict_lookup d k'.
Proof.
  unfold dict_lookup, dict_del.
  induction d as [|[key v] d IH]; simpl.
  - by case_decide.
  - destruct (String.eqb_spec key k) as [->|Hk]; simpl.
    + rewrite IH. case_decide as Hk'; [done|].
      apply String.eqb_neq in Hk'. rewrite String.eqb_sym in Hk'. by rewrite Hk'.
    + destruct (String.eqb_spec key k') as [->|Hk']; simpl.
      * by rewrite decide_False.
      * done.
Qed.

Lemma dict_lookup_not_contains (d : list (string * JSON)) (k : string) :
  dict_contains d k = false → dict_lookup d k = None.
Proof.
  unfold dict_contains, dict_lookup.
  induction d as [|[key v] d IH]; simpl; [done|].
  destruct (String.eqb key k); simpl; [done|]. apply IH.
Qed.

Lemma dict_get_lookup (d : list (string * JSON)) (k : string) (default : JSON) :
  dict_get d k default = from_option id default (dict_lookup d k).
Proof. unfold dict_get, dict_lookup. by destruct (find _ d) as [[??]|]. Qed.

Lemma dict_del_length (d : list (string * JSON)) (k : string) :
  (length (dict_del d k) ≤ length d)%nat ∧
  (dict_contains d k = true → length (dict_del d k) < length d)%nat.
Proof.
  unfold dict_del, dict_contains.
  induction d as [|[key v] d [IHle IHlt]]; simpl; [done|].
  destruct (String.eqb key k); simpl; split; try lia.
  intros Hc. apply IHlt in Hc. lia.
Qed.

Lemma dict_del_not_contains (d : list (string * JSON)) (k : string) :
  dict_contains d k = false → dict_del d k = d.
Proof.
  unfold dict_del, dict_contains.
  induction d as [|[key v] d IH]; simpl; [done|].
  destruct (String.eqb key k); simpl; [done|]. intros Hc. by rewrite IH.
Qed.

(** C3. On every JSON object, annotation mode returns, without raising, a
    mapping whose keys are exactly [ocr_results], [identified_keywords] and
    [statistics], each with the value the input has for it, or with the
    empty mapping when the input lacks the key. *)
Theorem process_json_content_keyword (d : list (string * JSON)) :
  ∃ out,
    (process_data.process_json_content (JObj d) true).1 = Ok (JObj out) ∧
    out.*1 = ["ocr_results"; "identified_keywords"; "statistics"] ∧
    ∀ k, k ∈ out.*1 →
      dict_lookup out k = Some (from_option id (JObj []) (dict_lookup d k)).
Proof.
  eexists. split; [reflexivity|]. split; [reflexivity|].
  intros k Hk. simpl in Hk. rewrite <- !dict_get_lookup.
  repeat (apply elem_of_cons in Hk as [->|Hk]; [reflexivity|]).
  by apply elem_of_nil in Hk.
Qed.

Lemma process_json_content_keyword_witness :
  ∃ out,
    (process_data.process_json_content doc_a_2024 true).1 = Ok (JObj out) ∧
    out.*1 = ["ocr_results"; "identified_keywords"; "statistics"] ∧
    ∀ k, k ∈ out.*1 →
      dict_lookup out k
      = Some (from_option id (JObj [])
                (dict_lookup [("statistics", JObj [("n", JInt 5)])] k)).
Proof. apply process_json_content_keyword. Defined.

(** C4. On every JSON object, model-result mode returns, without raising,
    a mapping that has no [metadata] key and gives every other key the
    value the input gives it. *)
Theorem process_json_content_model (d : list (string * JSON)) :
  ∃ out,
    (process_data.process_json_content (JObj d) false).1 = Ok (JObj out) ∧
    dict_lookup out "metadata" = None ∧
    ∀ k, k ≠ "metadata" → dict_lookup out k = dict_lookup d k.
Proof.
  unfold process_data.process_json_content. simpl.
  destruct (dict_contains d "metadata") eqn:Hc; simpl.
  - exists (dict_del d "metadata"). split; [done|]. split.
    + rewrite dict_lookup_del. by rewrite decide_True.
    + intros k Hk. rewrite dict_lookup_del. by rewrite decide_False.
  - exists d. split; [done|]. split; [|done].
    by apply dict_lookup_not_contains.
Qed.

Lemma process_json_content_model_witness :
  ∃ out,
    (process_data.process_json_content doc_a_20240102 false).1 = Ok (JObj out) ∧
    dict_lookup out "metadata" = None ∧
    ∀ k, k ≠ "metadata" →
      dict_lookup out k
      = dict_lookup [("metadata", JObj [("run", JInt 2)]);
                     ("labels", JArr [JStr "buoy"; JStr "wreck"])] k.
Proof. apply process_json_content_model. Defined.

(** C5, as the program has it. Model-result mode deletes the [metadata]
    entry from the very object it is given: after the call on the second
    result of [a], the argument holds its [labels] only and is no longer
    the document that was passed. *)
Lemma process_json_content_mutates_argument :
  (process_data.process_json_content doc_a_20240102 false).2
  = JObj [("labels", JArr [JStr "buoy"; JStr "wreck"])] ∧
  (process_data.process_json_content doc_a_20240102 false).2 ≠ doc_a_20240102.
Proof. split; [reflexivity|]. vm_compute. discriminate. Qed.

(** C5, amended. Reshaping reads and writes no file. Annotation mode
    leaves its argument as it was. Model-result mode leaves its argument
    as it was exactly when the argument has no [metadata] key; otherwise
    the argument loses that entry, and in both cases the object returned is
    the argument as the call leaves it. *)
Theorem process_json_content_argument (d : list (string * JSON)) :
  (process_data.process_json_content (JObj d) true).2 = JObj d ∧
  ((process_data.process_json_content (JObj d) false).2 = JObj d
   ↔ dict_contains d "metadata" = false) ∧
  (process_data.process_json_content (JObj d) false).2
  = JObj (dict_del d "metadata") ∧
  (process_data.process_json_content (JObj d) false).1
  = Ok (process_data.process_json_content (JObj d) false).2.
Proof.
  unfold process_data.process_json_content. simpl.
  destruct (dict_contains d "metadata") eqn:Hc; simpl.
  - split_and!; try done. split; [|done].
    intros [= Hd]. apply dict_del_length in Hc. rewrite Hd in Hc. lia.
  - split_and!; try done. by rewrite dict_del_not_contains.
Qed.

Lemma process_json_content_argument_witness :
  let d := [("metadata", JObj [("run", JInt 2)]);
            ("labels", JArr [JStr "buoy"; JStr "wreck"])] in
  (process_data.process_json_content (JObj d) true).2 = JObj d ∧
  ((process_data.process_json_content (JObj d) false).2 = JObj d
   ↔ dict_contains d "metadata" = false) ∧
  (process_data.process_json_content (JObj d) false).2
  = JObj (dict_del d "metadata") ∧
  (process_data.process_json_content (JObj d) false).1
  = Ok (process_data.process_json_content (JObj d) false).2.
Proof. intros d. apply (process_json_content_argument d). Defined.

(** ** Listing the image files *)

Lemma get_image_files_selects (fs : node)
    (self : process_data.WebsiteDataProcessor) (entries : list string) :
  listdir fs (process_data.image_dir self) = Ok entries →
  ∃ images,
    process_data.get_image_files fs self = Ok images ∧
    StronglySorted String.le images ∧
    images ≡ₚ List.filter
                (fun f => endswith_any (lower f) [".jpg"; ".jpeg"; ".png"])
                entries.
Proof.
  intros Hls. unfold process_data.get_image_files. rewrite Hls. simpl.
  eexists. split; [done|]. split.
  - apply sorted_StronglySorted.
  - apply sorted_perm.
Qed.

(** C6, on the program. On a directory that holds [a.jpg], [b.png],
    [C.JPG] and [d.jpeg], the discovery step of the pipeline lists the
    four, sorted, and [GET /api/files] lists [a.jpg] alone. *)
Theorem get_files_lists_lowercase_jpg_only :
  process_data.get_image_files listing_fs
    (process_data.__init__ ["E:"; "ENC_analysis"; "ENC_website"; "data"] [])
  = Ok ["C.JPG"; "a.jpg"; "b.png"; "d.jpeg"] ∧
  app.get_files listing_fs
  = Ok (app.jsonify (json_of_strs ["a.jpg"])).
Proof. split; reflexivity. Qed.

(** ** The publisher pipeline *)

Lemma apply_writes_app (ws1 ws2 : list (path * string)) (m : gmap path string) :
  apply_writes (ws1 ++ ws2) m = apply_writes ws2 (apply_writes ws1 m).
Proof. apply foldl_app. Qed.

Lemma apply_writes_union (ws : list (path * string)) (m : gmap path string) :
  apply_writes ws m = list_to_map (reverse ws) ∪ m.
Proof.
  revert m. induction ws as [|[p c] ws IH]; intros m; simpl.
  - by rewrite (left_id_L ∅ (∪)).
  - unfold apply_writes in *. simpl. rewrite IH.
    rewrite reverse_cons, list_to_map_app. simpl.
    rewrite insert_empty, <- (assoc_L (∪)).
    by rewrite <- insert_union_singleton_l.
Qed.

Lemma apply_writes_idemp (ws : list (path * string)) (m : gmap path string) :
  apply_writes ws (apply_writes ws m) = apply_writes ws m.
Proof.
  rewrite !apply_writes_union, (assoc_L (∪)). by rewrite (idemp_L (∪)).
Qed.

Lemma write_only_run_twice {A} (m : M A) (s : out_tree) :
  write_only m → m (m s).2 = m s.
Proof.
  intros (r & ws & ds & Hm). rewrite !Hm. simpl.
  rewrite apply_writes_idemp. do 2 f_equal.
  by rewrite (assoc_L (∪)), (idemp_L (∪)).
Qed.

Lemma write_only_ret {A} (a : A) : write_only (mret a : M A).
Proof.
  exists (Ok a), [], ∅. intros [fl ds]. unfold mret, M_ret. simpl.
  by rewrite (left_id_L ∅ (∪)).
Qed.

Lemma write_only_lift {A} (r : result A) : write_only (lift r).
Proof.
  exists r, [], ∅. intros [fl ds]. unfold lift. simpl.
  by rewrite (left_id_L ∅ (∪)).
Qed.

Lemma write_only_makedirs (p : path) : write_only (makedirs p).
Proof. by exists (Ok ()), [], (list_to_set (ancestors_and_self p)). Qed.

Lemma write_only_write_file (p : path) (content : string) :
  write_only (write_file p content).
Proof.
  exists (Ok ()), [(p, content)], ∅. intros [fl ds]. unfold write_file. simpl.
  by rewrite (left_id_L ∅ (∪)).
Qed.

Lemma write_only_bind {A B} (m : M A) (f : A → M B) :
  write_only m → (∀ a, write_only (f a)) → write_only (m ≫= f).
Proof.
  intros (r & ws & ds & Hm) Hf. destruct r as [a|e].
  - destruct (Hf a) as (r' & ws' & ds' & Hfa).
    exists r', (ws ++ ws'), (ds' ∪ ds). intros s.
    unfold mbind, M_bind. rewrite Hm, Hfa. simpl.
    rewrite apply_writes_app. by rewrite (assoc_L (∪)).
  - exists (Raise e), ws, ds. intros s.
    unfold mbind, M_bind. by rewrite Hm.
Qed.

Lemma write_only_for_each {A} (xs : list A) (body : A → M unit) :
  (∀ x, write_only (body x)) → write_only (for_each xs body).
Proof.
  intros Hbody. induction xs as [|x xs IH]; simpl.
  - apply write_only_ret.
  - apply write_only_bind; [apply Hbody|]. intros _. apply IH.
Qed.

Lemma write_only_copy2 (fs : node) (src dst : path) :
  write_only (copy2 fs src dst).
Proof.
  apply write_only_bind; [apply write_only_lift|].
  intros content. apply write_only_write_file.
Qed.

Create HintDb write_only.
#[local] Hint Resolve write_only_ret write_only_lift write_only_makedirs
  write_only_write_file write_only_copy2 : write_only.

(** Decompose a step of the pipeline into its primitive steps. *)
Ltac write_only_step :=
  match goal with
  | |- write_only (_ ≫= _) => apply write_only_bind
  | |- write_only (for_each _ _) => apply write_only_for_each
  | |- write_only (match ?x with _ => _ end) => destruct x
  | |- write_only (if ?b then _ else _) => destruct b
  | |- ∀ _, _ => intro
  | |- write_only _ => solve [auto with write_only]
  end.

Lemma write_only_create_directory_structure
    (self : process_data.WebsiteDataProcessor) :
  write_only (process_data.create_directory_structure self).
Proof. unfold process_data.create_directory_structure. repeat write_only_step. Qed.

Lemma write_only_process_files `{!OsPath, !Json} (fs : node)
    (self : process_data.WebsiteDataProcessor) :
  write_only (process_data.process_files fs self).
Proof. unfold process_data.process_files. repeat write_only_step. Qed.

Lemma write_only_process `{!OsPath, !Json} (fs : node)
    (self : process_data.WebsiteDataProcessor) :
  write_only (process_data.process fs self).
Proof.
  unfold process_data.process.
  apply write_only_bind; [apply write_only_create_directory_structure|].
  intros _. apply write_only_bind; [apply write_only_process_files|].
  intros _. apply write_only_ret.
Qed.

(** C2. Publishing twice in a row from an unchanged source tree: the
    second run ends as the first did and leaves the output tree exactly as
    the first left it, the same paths with the same bytes. This holds of
    [process_files] alone and of [process]. *)
Theorem process_files_idempotent `{!OsPath, !Json} (fs : node)
    (self : process_data.WebsiteDataProcessor) (out : out_tree) :
  (let first_run := process_data.process_files fs self out in
   process_data.process_files fs self first_run.2 = first_run) ∧
  (let first_run := process_data.process fs self out in
   process_data.process fs self first_run.2 = first_run).
Proof.
  split; simpl; apply write_only_run_twice.
  - apply write_only_process_files.
  - apply write_only_process.
Qed.

(** The scenario of the specification, run on an empty output tree: the
    two index files, [results/m1/a.json] with the latest result of [a]
    less its [metadata], the annotation of [a] with its three keys, and
    nothing for [m2] or for the annotation of [b]. *)
Example publish_scenario :
  let run := @process_data.process posixpath demo_json demo_fs demo_processor
               empty_out in
  let data := process_data.output_data_dir demo_processor in
  run.1 = Ok PyNone ∧
  files run.2 !! (data ++ ["models.json"])
  = Some (demo_dumps 0 (json_of_strs ["m1"; "m2"])) ∧
  files run.2 !! (data ++ ["files.json"])
  = Some (demo_dumps 0 (json_of_strs ["a.jpg"; "b.png"])) ∧
  files run.2 !! (data ++ ["images"; "a.jpg"]) = Some "JPEG-a" ∧
  files run.2 !! (data ++ ["images"; "b.png"]) = Some "PNG-b" ∧
  files run.2 !! (data ++ ["results"; "m1"; "a.json"])
  = Some (demo_dumps 0 (JObj [("labels", JArr [JStr "buoy"; JStr "wreck"])])) ∧
  files run.2 !! (data ++ ["results"; "m2"; "a.json"]) = None ∧
  files run.2 !! (data ++ ["keywords"; "a.json"])
  = Some (demo_dumps 0 (JObj [("ocr_results", JObj []);
                              ("identified_keywords", JObj []);
                              ("statistics", JObj [("n", JInt 5)])])) ∧
  files run.2 !! (data ++ ["keywords"; "b.json"]) = None ∧
  size (files run.2) = 6%nat.
Proof. vm_compute. repeat split. Qed.

(** *** What a completed run returns and leaves in the index files *)

Lemma run_lift_bind {A B} (r : result A) (f : A → M B) (s : out_tree) :
  (lift r ≫= f) s = match r with Ok a => f a s | Raise e => (Raise e, s) end.
Proof. by destruct r. Qed.

Lemma run_write_file_bind {B} (p : path) (content : string) (k : M B)
    (s : out_tree) :
  (write_file p content;; k) s
  = k {| files := <[p := content]> (files s); dirs := dirs s |}.
Proof. reflexivity. Qed.

Lemma run_then_ret {A B} (m : M A) (b : B) (s s' : out_tree) (v : B) :
  (m;; mret b) s = (Ok v, s') → v = b ∧ ∃ a, m s = (Ok a, s').
Proof.
  unfold mbind, M_bind. destruct (m s) as [[a|e] s1]; [|done].
  unfold mret, M_ret. intros [= <- <-]. eauto.
Qed.

Lemma preserves_file_ret {A} (p : path) (a : A) : preserves_file p (mret a : M A).
Proof. by intros s. Qed.

Lemma preserves_file_lift {A} (p : path) (r : result A) :
  preserves_file p (lift r).
Proof. by intros s. Qed.

Lemma preserves_file_makedirs (p q : path) : preserves_file p (makedirs q).
Proof. by intros s. Qed.

Lemma preserves_file_write_file (p q : path) (content : string) :
  q ≠ p → preserves_file p (write_file q content).
Proof. intros Hne s. simpl. by rewrite lookup_insert_ne. Qed.

Lemma preserves_file_bind {A B} (p : path) (m : M A) (f : A → M B) :
  preserves_file p m → (∀ a, preserves_file p (f a)) →
  preserves_file p (m ≫= f).
Proof.
  intros Hm Hf s. unfold mbind, M_bind. specialize (Hm s).
  destruct (m s) as [[a|e] s1]; simpl in *; [|done].
  by rewrite Hf.
Qed.

Lemma preserves_file_for_each {A} (p : path) (xs : list A) (body : A → M unit) :
  (∀ x, preserves_file p (body x)) → preserves_file p (for_each xs body).
Proof.
  intros Hbody. induction xs as [|x xs IH]; simpl.
  - apply preserves_file_ret.
  - apply preserves_file_bind; [apply Hbody|]. intros _. apply IH.
Qed.

Lemma preserves_file_copy2 (p : path) (fs : node) (src dst : path) :
  dst ≠ p → preserves_file p (copy2 fs src dst).
Proof.
  intros Hne. apply preserves_file_bind; [apply preserves_file_lift|].
  intros content. by apply preserves_file_write_file.
Qed.

(** Two paths of different lengths are different. *)
Ltac path_neq :=
  let Heq := fresh in
  unfold os_path_join; intros Heq; apply (f_equal length) in Heq;
  rewrite ?length_app in Heq; simpl in Heq; lia.

Ltac preserves_file_step :=
  match goal with
  | |- preserves_file _ (_ ≫= _) => apply preserves_file_bind
  | |- preserves_file _ (for_each _ _) => apply preserves_file_for_each
  | |- preserves_file _ (match ?x with _ => _ end) => destruct x
  | |- preserves_file _ (if ?b then _ else _) => destruct b
  | |- preserves_file _ (mret _) => apply preserves_file_ret
  | |- preserves_file _ (lift _) => apply preserves_file_lift
  | |- preserves_file _ (makedirs _) => apply preserves_file_makedirs
  | |- preserves_file _ (write_file _ _) =>
      apply preserves_file_write_file; path_neq
  | |- preserves_file _ (copy2 _ _ _) => apply preserves_file_copy2; path_neq
  | |- ∀ _, _ => intro
  end.

Lemma process_files_completed `{!OsPath, !Json} (fs : node)
    (source_path output_path : path) (out out' : out_tree) (v : pyvalue) :
  let self := process_data.__init__ source_path output_path in
  process_data.process_files fs self out = (Ok v, out') →
  v = PyNone ∧
  ∃ models images,
    process_data.get_models fs self = Ok models ∧
    process_data.get_image_files fs self = Ok images ∧
    files out' !! os_path_join (process_data.output_data_dir self) "models.json"
    = Some (json_dump true (json_of_strs models)) ∧
    files out' !! os_path_join (process_data.output_data_dir self) "files.json"
    = Some (json_dump true (json_of_strs images)).
Proof.
  intros self. unfold process_data.process_files.
  rewrite run_lift_bind.
  destruct (process_data.get_models fs self) as [models|]; [|done].
  rewrite run_lift_bind.
  destruct (process_data.get_image_files fs self) as [images|]; [|done].
  rewrite !run_write_file_bind. simpl files. simpl dirs.
  intros [-> [[] Hloop]]%run_then_ret. split; [done|].
  exists models, images. split; [done|]. split; [done|].
  match type of Hloop with ?loop ?s = _ =>
    assert (Hkeep : ∀ p,
      p = os_path_join (process_data.output_data_dir self) "models.json" ∨
      p = os_path_join (process_data.output_data_dir self) "files.json" →
      files out' !! p = files s !! p)
  end.
  { intros p Hp.
    match type of Hloop with ?loop ?s = _ =>
      replace out' with (loop s).2 by (by rewrite Hloop);
      generalize s; change (preserves_file p loop)
    end.
    subst self. simpl in Hp.
    destruct Hp as [-> | ->]; simpl; repeat preserves_file_step. }
  split.
  - rewrite Hkeep by (by left). simpl.
    rewrite lookup_insert_ne; [by rewrite lookup_insert_eq|].
    unfold os_path_join. intros Heq%(inj (app _)). discriminate Heq.
  - rewrite Hkeep by (by right). simpl.
    by rewrite lookup_insert_eq.
Qed.

Lemma create_directory_structure_runs
    (self : process_data.WebsiteDataProcessor) (s : out_tree) :
  ∃ s1, process_data.create_directory_structure self s = (Ok PyNone, s1) ∧
        files s1 = files s.
Proof. eexists. split; reflexivity. Qed.

(** C9, as the program has it. On the source tree of the scenario, with two
    images and two models, the run completes and returns [None], not the
    pair of the two counts. *)
Lemma process_returns_none_not_counts :
  process_data.get_image_files demo_fs demo_processor = Ok ["a.jpg"; "b.png"] ∧
  process_data.get_models demo_fs demo_processor = Ok ["m1"; "m2"] ∧
  (@process_data.process posixpath demo_json demo_fs demo_processor empty_out).1
  = Ok PyNone ∧
  (@process_data.process posixpath demo_json demo_fs demo_processor empty_out).1
  ≠ Ok (PyTuple [PyInt 2; PyInt 2]).
Proof. split_and!; [reflexivity..|]. vm_compute. discriminate. Qed.

(** C9, amended. A completed run of [process_files], and of [process],
    returns [None]. The images and the models it discovered are not
    counted for the caller; they are the two lists it leaves in
    [files.json] and [models.json] of the output data directory. *)
Theorem process_completed_returns_none `{!OsPath, !Json} (fs : node)
    (source_path output_path : path) (out out' : out_tree) (v : pyvalue) :
  let self := process_data.__init__ source_path output_path in
  process_data.process_files fs self out = (Ok v, out') ∨
  process_data.process fs self out = (Ok v, out') →
  v = PyNone ∧
  ∃ models images,
    process_data.get_models fs self = Ok models ∧
    process_data.get_image_files fs self = Ok images ∧
    files out' !! os_path_join (process_data.output_data_dir self) "models.json"
    = Some (json_dump true (json_of_strs models)) ∧
    files out' !! os_path_join (process_data.output_data_dir self) "files.json"
    = Some (json_dump true (json_of_strs images)).
Proof.
  intros self [Hrun|Hrun].
  - by eapply process_files_completed.
  - unfold process_data.process in Hrun.
    destruct (create_directory_structure_runs self out) as (s1 & Hdirs & _).
    unfold mbind at 1, M_bind in Hrun. rewrite Hdirs in Hrun.
    apply run_then_ret in Hrun as [-> [v' Hfiles]].
    split; [done|].
    by apply process_files_completed in Hfiles as [_ ?].
Qed.

Lemma process_completed_returns_none_witness :
  let self := demo_processor in
  let out' := (@process_data.process posixpath demo_json demo_fs self empty_out).2 in
  PyNone = PyNone ∧
  ∃ models images,
    process_data.get_models demo_fs self = Ok models ∧
    process_data.get_image_files demo_fs self = Ok images ∧
    files out' !! os_path_join (process_data.output_data_dir self) "models.json"
    = Some (@json_dump demo_json true (json_of_strs models)) ∧
    files out' !! os_path_join (process_data.output_data_dir self) "files.json"
    = Some (@json_dump demo_json true (json_of_strs images)).
Proof.
  intros self out'.
  apply (@process_completed_returns_none posixpath demo_json demo_fs
           ["E:"; "ENC_analysis"; "ENC_website"; "data"]
           ["E:"; "ENC_analysis"; "ENC_website_github"] empty_out out' PyNone).
  right. vm_compute. reflexivity.
Defined.

(** * Further properties *)

(** ** Prefixes, suffixes and lower case *)

Lemma string_length_app (a b : string) :
  String.length (a +:+ b) = (String.length a + String.length b)%nat.
Proof. induction a as [|c a IH]; simpl; [done|]. by rewrite IH. Qed.

Lemma substring_whole (s : string) : String.substring 0 (String.length s) s = s.
Proof. induction s as [|c s IH]; simpl; [done|]. by rewrite IH. Qed.

Lemma substring_after (pre s : string) (n : nat) :
  String.substring (String.length pre) n (pre +:+ s) = String.substring 0 n s.
Proof. induction pre as [|c pre IH]; simpl; [done|]. apply IH. Qed.

Lemma substring_split (s : string) : ∀ n : nat,
  (n ≤ String.length s)%nat →
  String.substring 0 n s +:+ String.substring n (String.length s - n) s = s.
Proof.
  induction s as [|c s IH]; intros [|n] Hn; simpl in *; try done.
  - by rewrite substring_whole.
  - change (String c (String.substring 0 n s
                      +:+ String.substring n (String.length s - n) s)
            = String c s).
    f_equal. apply IH. lia.
Qed.

Lemma startswith_app (s prefix : string) :
  startswith s prefix = true ↔ ∃ rest, s = prefix +:+ rest.
Proof.
  unfold startswith. revert s.
  induction prefix as [|c prefix IH]; intros s.
  - destruct s; simpl; split; eauto.
  - destruct s as [|c' s]; simpl.
    + split; [done|]. by intros [rest ?].
    + destruct (ascii_dec c c') as [->|Hne].
      * rewrite IH. split; intros [rest Hrest]; exists rest.
        -- by rewrite Hrest.
        -- change (String c' s = String c' (prefix +:+ rest)) in Hrest.
           by simplify_eq.
      * split; [done|]. intros [rest Hrest].
        change (String c' s = String c (prefix +:+ rest)) in Hrest.
        by simplify_eq.
Qed.

Lemma endswith_app (s suffix : string) :
  endswith s suffix = true ↔ ∃ stem, s = stem +:+ suffix.
Proof.
  unfold endswith, slice_from. rewrite Nat2Z.id, andb_true_iff.
  rewrite Nat.leb_le, String.eqb_eq. split.
  - intros [Hlen Hsub].
    set (k := (String.length s - String.length suffix)%nat) in *.
    exists (String.substring 0 k s).
    rewrite <- Hsub. symmetry. apply substring_split. lia.
  - intros [stem ->]. rewrite string_length_app. split; [lia|].
    replace (String.length stem + String.length suffix - String.length suffix)%nat
      with (String.length stem) by lia.
    replace (String.length stem + String.length suffix - String.length stem)%nat
      with (String.length suffix) by lia.
    by rewrite substring_after, substring_whole.
Qed.

Lemma lower_app (a b : string) : lower (a +:+ b) = lower a +:+ lower b.
Proof. induction a as [|c a IH]; simpl; [done|]. by rewrite IH. Qed.

Lemma lower_ascii_idemp (c : ascii) : lower_ascii (lower_ascii c) = lower_ascii c.
Proof. by destruct c as [[] [] [] [] [] [] [] []]. Qed.

Lemma lower_idemp (s : string) : lower (lower s) = lower s.
Proof.
  induction s as [|c s IH]; simpl; [done|]. by rewrite lower_ascii_idemp, IH.
Qed.

Lemma endswith_any_app (s : string) (suffixes : list string) :
  endswith_any s suffixes = true ↔
  ∃ stem suffix, suffix ∈ suffixes ∧ s = stem +:+ suffix.
Proof.
  unfold endswith_any. rewrite existsb_exists. split.
  - intros (suffix & Hin%list_elem_of_In & [stem Hstem]%endswith_app). eauto.
  - intros (stem & suffix & Hin & Hstem). exists suffix.
    split; [by apply list_elem_of_In|]. apply endswith_app. eauto.
Qed.

(** ** Sorting and filtering *)

Lemma filter_perm {A} (p : A → bool) (l1 l2 : list A) :
  l1 ≡ₚ l2 → List.filter p l1 ≡ₚ List.filter p l2.
Proof.
  induction 1 as [|x l1 l2 _ IH|x y l|l1 l2 l3 _ IH1 _ IH2]; simpl.
  - done.
  - destruct (p x); [by constructor|done].
  - destruct (p x), (p y); try done. apply perm_swap.
  - by etrans.
Qed.

Lemma elem_of_bool_filter {A} (p : A → bool) (l : list A) (x : A) :
  x ∈ List.filter p l ↔ x ∈ l ∧ p x = true.
Proof. rewrite !list_elem_of_In. apply filter_In. Qed.

Lemma StronglySorted_bool_filter {A} (R : relation A) (p : A → bool) (l : list A) :
  StronglySorted R l → StronglySorted R (List.filter p l).
Proof.
  induction 1 as [|x l Hl IH Hx]; simpl; [constructor|].
  destruct (p x); [|done]. constructor; [done|].
  rewrite Forall_forall in *. intros y [Hy _]%elem_of_bool_filter. by apply Hx.
Qed.

Lemma sorted_unique (l1 l2 : list string) :
  StronglySorted String.le l1 → StronglySorted String.le l2 → l1 ≡ₚ l2 →
  l1 = l2.
Proof. apply StronglySorted_unique; apply _. Qed.

Lemma sorted_perm_eq (l1 l2 : list string) : l1 ≡ₚ l2 → sorted l1 = sorted l2.
Proof.
  intros Hp. apply sorted_unique; [apply sorted_StronglySorted..|].
  by rewrite !sorted_perm.
Qed.

Lemma filter_sorted (p : string → bool) (l : list string) :
  List.filter p (sorted l) = sorted (List.filter p l).
Proof.
  apply sorted_unique.
  - apply StronglySorted_bool_filter, sorted_StronglySorted.
  - apply sorted_StronglySorted.
  - etrans; [apply filter_perm, sorted_perm|]. symmetry. apply sorted_perm.
Qed.

Lemma sorted_filter_perm (p q : string → bool) (l1 l2 : list string) :
  l1 ≡ₚ l2 → (∀ x, x ∈ l1 → p x = q x) →
  sorted (List.filter p l1) = sorted (List.filter q l2).
Proof.
  intros Hp Hpq. apply sorted_perm_eq.
  rewrite (filter_ext_in p q l1); [by apply filter_perm|].
  intros x Hx. by apply Hpq, list_elem_of_In.
Qed.

(** ** Listing images and models *)

(** X1. The names the pipeline takes for images are the entries of the image
    directory whose lower-cased name ends in one of the three extensions;
    they come out in ascending order, each as often as it is listed. *)
Theorem get_image_files_members (fs : node)
    (self : process_data.WebsiteDataProcessor) (entries : list string) :
  listdir fs (process_data.image_dir self) = Ok entries →
  ∃ images,
    process_data.get_image_files fs self = Ok images ∧
    StronglySorted String.le images ∧
    (∀ f, f ∈ images ↔
          f ∈ entries ∧
          ∃ stem ext, ext ∈ [".jpg"; ".jpeg"; ".png"] ∧ lower f = stem +:+ ext) ∧
    (length images ≤ length entries)%nat.
Proof.
  intros Hls. unfold process_data.get_image_files. rewrite Hls. simpl.
  eexists. split; [done|]. split; [apply sorted_StronglySorted|]. split.
  - intros f. rewrite elem_of_sorted, elem_of_bool_filter.
    by rewrite <- endswith_any_app.
  - rewrite sorted_perm. apply filter_length_le.
Qed.

Lemma get_image_files_members_witness :
  ∃ images,
    process_data.get_image_files listing_fs
      (process_data.__init__ ["E:"; "ENC_analysis"; "ENC_website"; "data"] [])
    = Ok images ∧
    StronglySorted String.le images ∧
    (∀ f, f ∈ images ↔
          f ∈ ["b.png"; "C.JPG"; "a.jpg"; "d.jpeg"; "notes.txt"] ∧
          ∃ stem ext, ext ∈ [".jpg"; ".jpeg"; ".png"] ∧ lower f = stem +:+ ext) ∧
    (length images ≤
     length ["b.png"; "C.JPG"; "a.jpg"; "d.jpeg"; "notes.txt"])%nat.
Proof. apply get_image_files_members. reflexivity. Defined.

(** X2. [GET /api/files] answers 200 with the entries of the image folder that
    end in the lower-case extension [.jpg], in ascending order; it is the
    listing of the pipeline for the same directory, less the names that do
    not end in [.jpg]. *)
Theorem get_files_filters_image_files (fs : node)
    (self : process_data.WebsiteDataProcessor) (entries : list string) :
  process_data.image_dir self = app.IMAGE_FOLDER →
  listdir fs app.IMAGE_FOLDER = Ok entries →
  ∃ images,
    process_data.get_image_files fs self = Ok images ∧
    app.get_files fs
    = Ok {| app.status := 200;
            app.body :=
              json_of_strs (List.filter (fun f => endswith f ".jpg") images) |} ∧
    ∀ f, f ∈ List.filter (fun f => endswith f ".jpg") images ↔
         f ∈ entries ∧ ∃ stem, f = stem +:+ ".jpg".
Proof.
  intros Hdir Hls.
  unfold process_data.get_image_files, app.get_files. rewrite Hdir, Hls.
  unfold mbind, result_bind, mret, result_ret, app.jsonify. cbv beta iota.
  eexists. split; [done|].
  assert (Hsub : ∀ f : string,
    endswith f ".jpg" = true →
    endswith_any (lower f) [".jpg"; ".jpeg"; ".png"] = true).
  { intros f [stem ->]%endswith_app. simpl. apply orb_true_iff. left.
    apply endswith_app. exists (lower stem). by rewrite lower_app. }
  rewrite filter_sorted.
  assert (Hff : List.filter (fun f => endswith f ".jpg")
                  (List.filter
                     (fun f => endswith_any (lower f) [".jpg"; ".jpeg"; ".png"])
                     entries)
                = List.filter (fun f => endswith f ".jpg") entries).
  { clear Hls. induction entries as [|x entries IH]; [done|].
    cbn [List.filter]. destruct (endswith x ".jpg") eqn:Hx.
    - rewrite (Hsub x Hx). cbn [List.filter]. by rewrite Hx, IH.
    - destruct (endswith_any _ _); cbn [List.filter]; by rewrite ?Hx, IH. }
  rewrite Hff. split; [done|].
  intros f. rewrite elem_of_sorted, elem_of_bool_filter.
  by rewrite endswith_app.
Qed.

Lemma get_files_filters_image_files_witness :
  ∃ images,
    process_data.get_image_files listing_fs
      (process_data.__init__ ["E:"; "ENC_analysis"; "ENC_website"; "data"] [])
    = Ok images ∧
    app.get_files listing_fs
    = Ok {| app.status := 200;
            app.body :=
              json_of_strs (List.filter (fun f => endswith f ".jpg") images) |} ∧
    ∀ f, f ∈ List.filter (fun f => endswith f ".jpg") images ↔
         f ∈ ["b.png"; "C.JPG"; "a.jpg"; "d.jpeg"; "notes.txt"] ∧
         ∃ stem, f = stem +:+ ".jpg".
Proof. apply get_files_filters_image_files; reflexivity. Defined.

(** X3. The models of the pipeline are the entries of the results directory
    that are directories, in ascending order; the directory of each can be
    listed, so resolving an artifact in it does not raise. *)
Theorem get_models_members (fs : node)
    (self : process_data.WebsiteDataProcessor) (entries : list string) :
  listdir fs (process_data.results_dir self) = Ok entries →
  ∃ models,
    process_data.get_models fs self = Ok models ∧
    StronglySorted String.le models ∧
    (∀ m, m ∈ models ↔
          m ∈ entries ∧
          isdir fs (os_path_join (process_data.results_dir self) m) = true) ∧
    (∀ m base_name, m ∈ models →
       ∃ r, process_data.get_latest_json fs base_name
              (os_path_join (process_data.results_dir self) m) = Ok r).
Proof.
  intros Hls. unfold process_data.get_models. rewrite Hls.
  unfold mbind, result_bind, mret, result_ret. cbv beta iota.
  eexists. split; [done|]. split; [apply sorted_StronglySorted|].
  assert (Hmem : ∀ m,
    m ∈ sorted (List.filter
                  (fun d => isdir fs (os_path_join (process_data.results_dir self) d))
                  entries)
    ↔ m ∈ entries ∧
      isdir fs (os_path_join (process_data.results_dir self) m) = true).
  { intros m. by rewrite elem_of_sorted, elem_of_bool_filter. }
  split; [done|].
  intros m base_name [_ Hdir]%Hmem.
  destruct (isdir_listdir _ _ Hdir) as [names Hnames].
  destruct (pipeline_get_latest_json fs names base_name _ Hnames) as (r & Hr & _).
  eauto.
Qed.

Lemma get_models_members_witness :
  ∃ models,
    process_data.get_models demo_fs demo_processor = Ok models ∧
    StronglySorted String.le models ∧
    (∀ m, m ∈ models ↔
          m ∈ ["m2"; "m1"; "notes.txt"] ∧
          isdir demo_fs
            (os_path_join (process_data.results_dir demo_processor) m) = true) ∧
    (∀ m base_name, m ∈ models →
       ∃ r, process_data.get_latest_json demo_fs base_name
              (os_path_join (process_data.results_dir demo_processor) m) = Ok r).
Proof. apply get_models_members. reflexivity. Defined.

Lemma bool_filter_sublist {A} (p : A → bool) (l : list A) :
  sublist (List.filter p l) l.
Proof.
  induction l as [|x l IH]; simpl; [constructor|].
  destruct (p x); by constructor.
Qed.

(** X4. The query service discovers the entries of the results folder that are
    directories and keeps them in the order of the listing, unsorted;
    [GET /api/models] answers 200 with that list, and resolving an artifact
    for a model of the list does not raise. *)
Theorem get_available_models_members `{!OsPath} (fs : node)
    (entries : list string) :
  listdir fs app.RESULTS_FOLDER = Ok entries →
  ∃ models,
    app.get_available_models fs = Ok models ∧
    sublist models entries ∧
    (∀ m, m ∈ models ↔
          m ∈ entries ∧ isdir fs (os_path_join app.RESULTS_FOLDER m) = true) ∧
    app.get_models fs
    = Ok {| app.status := 200; app.body := json_of_strs models |} ∧
    ∀ model image_filename, model ∈ models →
      ∃ r, app.get_latest_json fs image_filename model = Ok r.
Proof.
  intros Hls.
  assert (Hmodels : app.get_available_models fs
    = Ok (List.filter (fun d => isdir fs (os_path_join app.RESULTS_FOLDER d))
            entries)).
  { unfold app.get_available_models. by rewrite Hls. }
  eexists. split; [done|]. split; [apply bool_filter_sublist|].
  split.
  { intros m.
    exact (elem_of_bool_filter
             (fun d => isdir fs (os_path_join app.RESULTS_FOLDER d)) entries m). }
  split.
  - unfold app.get_models. by rewrite Hmodels.
  - intros model image_filename Hin.
    pose proof (get_available_models_isdir fs _ model Hmodels Hin) as Hisdir.
    destruct (isdir_listdir _ _ Hisdir) as [names Hnames].
    destruct (service_get_latest_json fs names image_filename model Hnames)
      as (r & Hr & _).
    eauto.
Qed.

Lemma get_available_models_members_witness :
  ∃ models,
    app.get_available_models demo_fs = Ok models ∧
    sublist models ["m2"; "m1"] ∧
    (∀ m, m ∈ models ↔
          m ∈ ["m2"; "m1"] ∧
          isdir demo_fs (os_path_join app.RESULTS_FOLDER m) = true) ∧
    app.get_models demo_fs
    = Ok {| app.status := 200; app.body := json_of_strs models |} ∧
    ∀ model image_filename, model ∈ models →
      ∃ r, @app.get_latest_json posixpath demo_fs image_filename model = Ok r.
Proof. apply (@get_available_models_members posixpath). reflexivity. Defined.

(** ** The resolver and the order and growth of a listing *)

Lemma string_app_assoc (a b c : string) : (a +:+ b) +:+ c = a +:+ (b +:+ c).
Proof.
  induction a as [|x a IH]; [done|].
  change (String x ((a +:+ b) +:+ c) = String x (a +:+ (b +:+ c))).
  by rewrite IH.
Qed.

Lemma startswith_trans (s base1 base2 : string) :
  startswith s base1 = true → startswith base1 base2 = true →
  startswith s base2 = true.
Proof.
  intros [r1 ->]%startswith_app [r2 ->]%startswith_app.
  apply startswith_app. exists (r2 +:+ r1). apply string_app_assoc.
Qed.

(** X5. The resolver does not depend on the order in which the operating
    system lists a directory: two listings with the same entries resolve
    to the same artifact. *)
Theorem get_latest_json_listing_order (fs1 fs2 : node) (dir1 dir2 : path)
    (entries1 entries2 : list string) (base_name : string) :
  listdir fs1 dir1 = Ok entries1 →
  listdir fs2 dir2 = Ok entries2 →
  entries1 ≡ₚ entries2 →
  process_data.get_latest_json fs1 base_name dir1
  = process_data.get_latest_json fs2 base_name dir2.
Proof.
  intros Hls1 Hls2 Hperm. unfold process_data.get_latest_json.
  rewrite Hls1, Hls2.
  unfold mbind, result_bind. cbv beta iota.
  pose proof (filter_perm (fun f => startswith f base_name) _ _ Hperm) as Hp.
  pose proof (sorted_perm_eq _ _ Hp) as Hs.
  destruct (List.filter _ entries1) as [|x1 l1],
           (List.filter _ entries2) as [|x2 l2].
  - done.
  - by apply Permutation_nil_cons in Hp.
  - symmetry in Hp. by apply Permutation_nil_cons in Hp.
  - by rewrite Hs.
Qed.

Lemma get_latest_json_listing_order_witness :
  process_data.get_latest_json
    (Dir [("a_1.json", File "x"); ("b.json", File "y"); ("a_2.json", File "z")])
    "a" []
  = process_data.get_latest_json
      (Dir [("a_2.json", File "z"); ("a_1.json", File "x"); ("b.json", File "y")])
      "a" [].
Proof.
  apply (get_latest_json_listing_order _ _ [] []
           ["a_1.json"; "b.json"; "a_2.json"] ["a_2.json"; "a_1.json"; "b.json"]);
    [reflexivity..|].
  etrans; [apply perm_skip, perm_swap|apply perm_swap].
Defined.

(** X6. The latest artifact only moves forward: when a directory gains
    entries, or the base name is shortened to one of its prefixes, the
    resolver still finds an artifact, and one that is not smaller. *)
Theorem get_latest_json_monotone (fs1 fs2 : node) (dir1 dir2 : path)
    (entries1 entries2 : list string) (base1 base2 latest1 : string) :
  listdir fs1 dir1 = Ok entries1 →
  listdir fs2 dir2 = Ok entries2 →
  entries1 ⊆ entries2 →
  startswith base1 base2 = true →
  process_data.get_latest_json fs1 base1 dir1 = Ok (Some latest1) →
  ∃ latest2,
    process_data.get_latest_json fs2 base2 dir2 = Ok (Some latest2) ∧
    String.le latest1 latest2.
Proof.
  intros Hls1 Hls2 Hsub Hbase Hr1.
  destruct (pipeline_get_latest_json fs1 entries1 base1 dir1 Hls1)
    as (r1 & Hr1' & Hl1 & _).
  rewrite Hr1 in Hr1'. injection Hr1' as <-. destruct Hl1 as (Hin & Hstart & _).
  destruct (pipeline_get_latest_json fs2 entries2 base2 dir2 Hls2)
    as (r2 & Hr2 & Hl2 & _).
  assert (Hstart2 : startswith latest1 base2 = true)
    by by eapply startswith_trans.
  destruct r2 as [latest2|]; simpl in Hl2.
  - exists latest2. split; [done|]. destruct Hl2 as (_ & _ & Hmax).
    apply Hmax; [by apply Hsub|done].
  - rewrite (Hl2 latest1) in Hstart2; [done|by apply Hsub].
Qed.

Lemma get_latest_json_monotone_witness :
  ∃ latest2,
    process_data.get_latest_json
      (Dir [("img10_b.json", File "x"); ("img1_a.json", File "y");
            ("img1_c.json", File "z")])
      "img1" []
    = Ok (Some latest2) ∧
    String.le "img1_a.json" latest2.
Proof.
  apply (get_latest_json_monotone
           (Dir [("img1_a.json", File "y")])
           (Dir [("img10_b.json", File "x"); ("img1_a.json", File "y");
                 ("img1_c.json", File "z")])
           [] [] ["img1_a.json"] ["img10_b.json"; "img1_a.json"; "img1_c.json"]
           "img1_" "img1" "img1_a.json");
    [reflexivity|reflexivity| |reflexivity|reflexivity].
  intros x Hx. apply list_elem_of_singleton in Hx as ->.
  apply list_elem_of_further, list_elem_of_here.
Defined.

(** ** Reshaping again, reshaping other documents, and unique keys *)

Lemma dict_contains_del (d : list (string * JSON)) (k : string) :
  dict_contains (dict_del d k) k = false.
Proof.
  unfold dict_contains, dict_del.
  induction d as [|[key v] d IH]; simpl; [done|].
  destruct (String.eqb key k) eqn:Hk; simpl; [done|]. by rewrite Hk.
Qed.

Lemma dict_contains_keys (d : list (string * JSON)) (k : string) :
  dict_contains d k = true ↔ k ∈ d.*1.
Proof.
  unfold dict_contains. induction d as [|[key v] d IH]; simpl.
  - split; [done|]. by intros ?%elem_of_nil.
  - rewrite orb_true_iff, IH, elem_of_cons, String.eqb_eq.
    split; (intros [->|?]; [by left|by right]).
Qed.

Lemma dict_del_keys_sublist (d : list (string * JSON)) (k : string) :
  sublist (dict_del d k).*1 d.*1.
Proof.
  unfold dict_del. induction d as [|[key v] d IH]; simpl; [constructor|].
  destruct (String.eqb key k); simpl; by constructor.
Qed.

Lemma dict_del_unique_length (d : list (string * JSON)) (k : string) :
  NoDup d.*1 → dict_contains d k = true →
  S (length (dict_del d k)) = length d.
Proof.
  induction d as [|[key v] d IH]; simpl; [done|].
  intros [Hnotin Hnodup]%NoDup_cons Hc.
  unfold dict_contains in Hc. simpl in Hc. unfold dict_del. simpl.
  destruct (String.eqb_spec key k) as [->|Hne]; simpl.
  - f_equal. fold (dict_del d k). rewrite dict_del_not_contains; [done|].
    destruct (dict_contains d k) eqn:Hd; [|done].
    by apply dict_contains_keys in Hd.
  - f_equal. by apply IH.
Qed.

(** X7. Reshaping is idempotent: what either mode returns for an object is an
    object that the same mode returns as it is, and leaves as it is. *)
Theorem process_json_content_idempotent (d : list (string * JSON))
    (is_keyword : bool) :
  ∃ out,
    (process_data.process_json_content (JObj d) is_keyword).1 = Ok (JObj out) ∧
    process_data.process_json_content (JObj out) is_keyword
    = (Ok (JObj out), JObj out).
Proof.
  destruct is_keyword.
  - eexists. split; reflexivity.
  - unfold process_data.process_json_content. simpl.
    destruct (dict_contains d "metadata") eqn:Hc; simpl.
    + eexists. split; [done|]. by rewrite dict_contains_del.
    + eexists. split; [done|]. by rewrite Hc.
Qed.

(** X8. A document that is not an object. Annotation mode raises
    [AttributeError]. Model-result mode returns the document itself, or
    raises [TypeError]; for an array it returns it exactly when the string
    [metadata] is not one of its items. Neither mode changes the
    document. *)
Theorem process_json_content_non_object (v : JSON) :
  (∀ d, v ≠ JObj d) →
  process_data.process_json_content v true = (Raise AttributeError, v) ∧
  (process_data.process_json_content v false).2 = v ∧
  ((process_data.process_json_content v false).1 = Ok v ∨
   (process_data.process_json_content v false).1 = Raise TypeError) ∧
  (∀ items, v = JArr items →
     ((process_data.process_json_content v false).1 = Ok v
      ↔ JStr "metadata" ∉ items)).
Proof.
  intros Hv. destruct v as [| | | |s|items|d]; try (by destruct (Hv d)).
  1-4: (split_and!; [done|done|by right|intros ? [=]]).
  - unfold process_data.process_json_content. simpl.
    destruct (str_contains s "metadata"); simpl;
      (split_and!; [done|done|auto|intros ? [=]]).
  - assert (Hitems :
      existsb (fun v => match v with
                        | JStr s => String.eqb s "metadata"
                        | _ => false
                        end) items = false
      ↔ JStr "metadata" ∉ items).
    { rewrite <- not_true_iff_false, existsb_exists. split.
      - intros Hno Hin. apply Hno. exists (JStr "metadata").
        split; [by apply list_elem_of_In|done].
      - intros Hnotin (x & Hin%list_elem_of_In & Hx).
        destruct x; try done. apply String.eqb_eq in Hx as ->. done. }
    unfold process_data.process_json_content. simpl.
    destruct (existsb _ items) eqn:Hex; simpl.
    + split_and!; [done|done|by right|]. intros ? [= <-].
      split; [done|]. intros Hnotin%Hitems. done.
    + split_and!; [done|done|by left|]. intros ? [= <-].
      split; [|done]. intros _. by apply Hitems.
Qed.

Lemma process_json_content_non_object_witness :
  let v := JArr [JStr "buoy"; JStr "metadata"] in
  process_data.process_json_content v true = (Raise AttributeError, v) ∧
  (process_data.process_json_content v false).2 = v ∧
  ((process_data.process_json_content v false).1 = Ok v ∨
   (process_data.process_json_content v false).1 = Raise TypeError) ∧
  (∀ items, v = JArr items →
     ((process_data.process_json_content v false).1 = Ok v
      ↔ JStr "metadata" ∉ items)).
Proof. intros v. apply process_json_content_non_object. intros d [=]. Defined.

(** X9. Keys stay unique. On an object whose keys are distinct, as those of a
    parsed document are, both modes return an object with distinct keys;
    model-result mode removes exactly one entry when [metadata] is a key,
    and none otherwise. *)
Theorem process_json_content_unique_keys (d : list (string * JSON))
    (is_keyword : bool) :
  NoDup d.*1 →
  ∃ out,
    (process_data.process_json_content (JObj d) is_keyword).1 = Ok (JObj out) ∧
    NoDup out.*1 ∧
    (is_keyword = false →
     length d
     = if dict_contains d "metadata" then S (length out) else length out).
Proof.
  intros Hnodup. destruct is_keyword.
  - eexists. split; [reflexivity|]. split; [|done]. simpl.
    apply (bool_decide_unpack _). by vm_compute.
  - unfold process_data.process_json_content. simpl.
    destruct (dict_contains d "metadata") eqn:Hc; simpl.
    + eexists. split; [done|]. split.
      * eapply sublist_NoDup; [done|apply dict_del_keys_sublist].
      * intros _. symmetry. by apply dict_del_unique_length.
    + eexists. split; [done|]. split; done.
Qed.

Lemma process_json_content_unique_keys_witness :
  ∃ out,
    (process_data.process_json_content doc_a_20240102 false).1 = Ok (JObj out) ∧
    NoDup out.*1 ∧
    (false = false →
     length [("metadata", JObj [("run", JInt 2)]);
             ("labels", JArr [JStr "buoy"; JStr "wreck"])]
     = if dict_contains [("metadata", JObj [("run", JInt 2)]);
                         ("labels", JArr [JStr "buoy"; JStr "wreck"])]
            "metadata"
       then S (length out) else length out).
Proof.
  apply (process_json_content_unique_keys
           [("metadata", JObj [("run", JInt 2)]);
            ("labels", JArr [JStr "buoy"; JStr "wreck"])] false).
  apply (bool_decide_unpack _). by vm_compute.
Defined.

(** ** What [GET /api/json] answers, and when it raises *)

(** X10. Every answer of [GET /api/json/<model>/<filename>] is one of three: 404
    [Invalid model], 404 [JSON not found], or 200 with the parsed content
    of a file of the directory of a discovered model whose name starts
    with the base name of the file name. *)
Theorem get_json_answers `{!OsPath, !Json} (fs : node)
    (model filename : string) (r : app.response) :
  app.get_json fs model filename = Ok r →
  r = {| app.status := 404;
         app.body := JObj [("error", JStr "Invalid model")] |} ∨
  r = {| app.status := 404;
         app.body := JObj [("error", JStr "JSON not found")] |} ∨
  ∃ models entries name text,
    app.get_available_models fs = Ok models ∧ model ∈ models ∧
    listdir fs (os_path_join app.RESULTS_FOLDER model) = Ok entries ∧
    name ∈ entries ∧ startswith name (splitext filename).1 = true ∧
    read_file fs (os_path_join (os_path_join app.RESULTS_FOLDER model) name)
    = Ok text ∧
    json_load text = Some (app.body r) ∧ app.status r = 200.
Proof.
  unfold app.get_json.
  destruct (app.get_available_models fs) as [models|] eqn:Hmodels; [|done].
  simpl. case_bool_decide as Hin; simpl.
  2:{ intros [= <-]. by left. }
  destruct (app.get_latest_json fs filename model) as [[name|]|] eqn:Hlatest;
    simpl; [| |done].
  2:{ intros [= <-]. right. by left. }
  destruct (String.eqb name EmptyString); simpl.
  { intros [= <-]. right. by left. }
  destruct (read_file fs _) as [text|] eqn:Hread; simpl; [|done].
  unfold load_json. destruct (json_load text) as [v|] eqn:Hload; simpl; [|done].
  intros [= <-]. right. right.
  pose proof (get_available_models_isdir fs models model Hmodels Hin) as Hisdir.
  destruct (isdir_listdir _ _ Hisdir) as [entries Hls].
  destruct (service_get_latest_json fs entries filename model Hls)
    as (r' & Hr' & Hspec & _).
  rewrite Hlatest in Hr'. injection Hr' as <-. destruct Hspec as (? & ? & _).
  exists models, entries, name, text. by split_and!.
Qed.

Lemma get_json_answers_witness :
  let r := {| app.status := 200; app.body := doc_a_20240102 |} in
  r = {| app.status := 404;
         app.body := JObj [("error", JStr "Invalid model")] |} ∨
  r = {| app.status := 404;
         app.body := JObj [("error", JStr "JSON not found")] |} ∨
  ∃ models entries name text,
    app.get_available_models demo_fs = Ok models ∧ "m1" ∈ models ∧
    listdir demo_fs (os_path_join app.RESULTS_FOLDER "m1") = Ok entries ∧
    name ∈ entries ∧ startswith name (@splitext posixpath "a.jpg").1 = true ∧
    read_file demo_fs (os_path_join (os_path_join app.RESULTS_FOLDER "m1") name)
    = Ok text ∧
    @json_load demo_json text = Some (app.body r) ∧ app.status r = 200.
Proof.
  intros r. apply (@get_json_answers posixpath demo_json demo_fs "m1" "a.jpg" r).
  reflexivity.
Defined.

(** X11. When the latest artifact of a known model cannot be read as a file, or
    is not JSON, [GET /api/json] raises: it answers neither 404 nor 200. *)
Theorem get_json_raises `{!OsPath, !Json} (fs : node)
    (model filename latest : string) (models : list string) :
  app.get_available_models fs = Ok models →
  model ∈ models →
  app.get_latest_json fs filename model = Ok (Some latest) →
  latest ≠ EmptyString →
  (∀ e, read_file fs
          (os_path_join (os_path_join app.RESULTS_FOLDER model) latest)
        = Raise e →
        app.get_json fs model filename = Raise e) ∧
  (∀ text, read_file fs
             (os_path_join (os_path_join app.RESULTS_FOLDER model) latest)
           = Ok text →
           json_load text = None →
           app.get_json fs model filename = Raise ValueError).
Proof.
  intros Hmodels Hin Hlatest Hne%String.eqb_neq.
  unfold app.get_json. rewrite Hmodels. simpl.
  rewrite bool_decide_eq_true_2 by done. simpl. rewrite Hlatest. simpl.
  unfold truthy. rewrite Hne. simpl. split.
  - intros e ->. done.
  - intros text -> Hload. simpl. unfold load_json. by rewrite Hload.
Qed.

Lemma get_json_raises_witness :
  (∀ e, read_file broken_results_fs
          (os_path_join (os_path_join app.RESULTS_FOLDER "m1") "b_1.json")
        = Raise e →
        @app.get_json posixpath demo_json broken_results_fs "m1" "b.jpg"
        = Raise e) ∧
  (∀ text, read_file broken_results_fs
             (os_path_join (os_path_join app.RESULTS_FOLDER "m1") "b_1.json")
           = Ok text →
           @json_load demo_json text = None →
           @app.get_json posixpath demo_json broken_results_fs "m1" "b.jpg"
           = Raise ValueError).
Proof.
  apply (@get_json_raises posixpath demo_json broken_results_fs "m1" "b.jpg"
           "b_1.json" ["m1"]); try reflexivity.
  - apply list_elem_of_here.
  - discriminate.
Defined.

(** ** The output tree of the pipeline *)

Lemma elem_of_ancestors_and_self (p q : path) :
  q ∈ ancestors_and_self p ↔ q ≠ [] ∧ q `prefix_of` p.
Proof.
  unfold ancestors_and_self. rewrite list_elem_of_fmap. split.
  - intros (n & -> & Hn%elem_of_seq). split.
    + intros [->| ->]%take_nil_inv; simpl in *; lia.
    + exists (drop n p). by rewrite take_drop.
  - intros [Hne [k ->]]. exists (length q). split.
    + by rewrite take_app_length.
    + apply elem_of_seq. rewrite length_app. destruct q; [done|]. simpl. lia.
Qed.


Lemma write_only_grows {A} (m : M A) (s : out_tree) :
  write_only m →
  dom (files s) ⊆ dom (files (m s).2) ∧ dirs s ⊆ dirs (m s).2.
Proof.
  intros (r & ws & ds & Hm). rewrite Hm. simpl. split.
  - rewrite apply_writes_union, dom_union_L. apply union_subseteq_r.
  - apply union_subseteq_r.
Qed.

Lemma process_after_directories `{!OsPath, !Json} (fs : node)
    (self : process_data.WebsiteDataProcessor) (out s1 : out_tree) :
  process_data.create_directory_structure self out = (Ok PyNone, s1) →
  process_data.process fs self out
  = match process_data.process_files fs self s1 with
    | (Ok _, s2) => (Ok PyNone, s2)
    | (Raise e, s2) => (Raise e, s2)
    end.
Proof.
  intros Hdirs. unfold process_data.process, mbind, M_bind. rewrite Hdirs.
  by destruct (process_data.process_files fs self s1) as [[?|?] ?].
Qed.

(** X13. A run never deletes: every file and every directory of the output tree
    it starts from is still there when it ends, however it ends. *)
Theorem process_keeps_existing `{!OsPath, !Json} (fs : node)
    (self : process_data.WebsiteDataProcessor) (out : out_tree) :
  (dom (files out) ⊆ dom (files (process_data.process_files fs self out).2) ∧
   dirs out ⊆ dirs (process_data.process_files fs self out).2) ∧
  (dom (files out) ⊆ dom (files (process_data.process fs self out).2) ∧
   dirs out ⊆ dirs (process_data.process fs self out).2).
Proof.
  split; apply write_only_grows.
  - apply write_only_process_files.
  - apply write_only_process.
Qed.

(** X14. When one of the two source directories cannot be listed,
    [process_files] raises what the listing raises and writes nothing;
    [process] raises the same, having made directories only. *)
Theorem process_files_unlistable_source `{!OsPath, !Json} (fs : node)
    (self : process_data.WebsiteDataProcessor) (out : out_tree) (e : exn) :
  listdir fs (process_data.results_dir self) = Raise e ∨
  ((∃ entries, listdir fs (process_data.results_dir self) = Ok entries) ∧
   listdir fs (process_data.image_dir self) = Raise e) →
  process_data.process_files fs self out = (Raise e, out) ∧
  (process_data.process fs self out).1 = Raise e ∧
  files (process_data.process fs self out).2 = files out.
Proof.
  intros Hsrc.
  assert (Hfiles : ∀ s, process_data.process_files fs self s = (Raise e, s)).
  { intros s. unfold process_data.process_files. rewrite run_lift_bind.
    destruct Hsrc as [Hres|([entries Hls] & Himg)].
    - unfold process_data.get_models. by rewrite Hres.
    - unfold process_data.get_models. rewrite Hls. simpl.
      rewrite run_lift_bind. unfold process_data.get_image_files.
      by rewrite Himg. }
  split; [apply Hfiles|].
  destruct (create_directory_structure_runs self out) as (s1 & Hdirs & Hsame).
  rewrite (process_after_directories fs self out s1 Hdirs), Hfiles. done.
Qed.

Lemma process_files_unlistable_source_witness :
  @process_data.process_files posixpath demo_json (Dir []) demo_processor empty_out
  = (Raise OSError, empty_out) ∧
  (@process_data.process posixpath demo_json (Dir []) demo_processor empty_out).1
  = Raise OSError ∧
  files (@process_data.process posixpath demo_json (Dir []) demo_processor
           empty_out).2
  = files empty_out.
Proof.
  apply (@process_files_unlistable_source posixpath demo_json).
  left. reflexivity.
Defined.



(** ** What a run publishes *)

(** [process_files] in terms of the named steps of its loop. *)
Lemma process_files_steps `{!OsPath, !Json} (fs : node)
    (self : process_data.WebsiteDataProcessor) :
  process_data.process_files fs self
  = (models ← lift (process_data.get_models fs self);
     images ← lift (process_data.get_image_files fs self);
     write_file (os_path_join (process_data.output_data_dir self) "models.json")
       (json_dump true (json_of_strs models));;
     write_file (os_path_join (process_data.output_data_dir self) "files.json")
       (json_dump true (json_of_strs images));;
     for_each images (publish_image fs self models);;
     mret PyNone).
Proof. reflexivity. Qed.

Lemma process_files_run `{!OsPath, !Json} (fs : node)
    (self : process_data.WebsiteDataProcessor) (models images : list string)
    (out : out_tree) :
  process_data.get_models fs self = Ok models →
  process_data.get_image_files fs self = Ok images →
  process_data.process_files fs self out
  = (for_each images (publish_image fs self models);; mret PyNone)
      {| files :=
           <[os_path_join (process_data.output_data_dir self) "files.json" :=
               json_dump true (json_of_strs images)]>
             (<[os_path_join (process_data.output_data_dir self) "models.json" :=
                  json_dump true (json_of_strs models)]> (files out));
         dirs := dirs out |}.
Proof.
  intros Hmodels Himages. rewrite process_files_steps.
  rewrite run_lift_bind, Hmodels, run_lift_bind, Himages.
  by rewrite !run_write_file_bind.
Qed.

Lemma run_bind_completed {A B} (m : M A) (f : A → M B) (s s' : out_tree) (b : B) :
  (m ≫= f) s = (Ok b, s') → ∃ a s1, m s = (Ok a, s1) ∧ f a s1 = (Ok b, s').
Proof.
  unfold mbind, M_bind. destruct (m s) as [[a|e] s1]; [|done]. eauto.
Qed.

Lemma run_lift_bind_completed {A B} (r : result A) (f : A → M B)
    (s s' : out_tree) (b : B) :
  (lift r ≫= f) s = (Ok b, s') → ∃ a, r = Ok a ∧ f a s = (Ok b, s').
Proof. rewrite run_lift_bind. destruct r; [eauto|done]. Qed.

Lemma for_each_completed {A} (xs : list A) (body : A → M unit) (x : A) :
  ∀ s s' u, for_each xs body s = (Ok u, s') → x ∈ xs →
  ∃ s1 s2, body x s1 = (Ok (), s2).
Proof.
  induction xs as [|y xs IH]; intros s s' u Hrun Hin.
  - by apply elem_of_nil in Hin.
  - simpl in Hrun. apply run_bind_completed in Hrun as ([] & s1 & Hy & Hrest).
    apply elem_of_cons in Hin as [->|Hin]; [eauto|]. by eapply IH.
Qed.

Lemma preserves_file_lift_bind {A B} (p : path) (r : result A) (f : A → M B) :
  (∀ a, r = Ok a → preserves_file p (f a)) → preserves_file p (lift r ≫= f).
Proof.
  intros Hf s. rewrite run_lift_bind. destruct r as [a|e]; [|done].
  by apply Hf.
Qed.


Lemma keeps_ret {A} (Q : out_tree → Prop) (a : A) : keeps Q (mret a : M A).
Proof. by intros s. Qed.

Lemma keeps_makedirs (p q : path) (content : string) :
  keeps (file_is p content) (makedirs q).
Proof. by intros s. Qed.

Lemma keeps_write_file (p q : path) (content written : string) :
  (q = p → written = content) →
  keeps (file_is p content) (write_file q written).
Proof.
  intros Hsame s Hs. unfold file_is in *. simpl.
  destruct (decide (q = p)) as [->|Hne].
  - rewrite Hsame by done. apply lookup_insert_eq.
  - by rewrite lookup_insert_ne.
Qed.

Lemma keeps_bind {A B} (Q : out_tree → Prop) (m : M A) (f : A → M B) :
  keeps Q m → (∀ a, keeps Q (f a)) → keeps Q (m ≫= f).
Proof.
  intros Hm Hf s Hs. unfold mbind, M_bind. specialize (Hm s Hs).
  destruct (m s) as [[a|e] s1]; simpl in *; [|done]. by apply Hf.
Qed.

Lemma keeps_lift_bind {A B} (Q : out_tree → Prop) (r : result A) (f : A → M B) :
  (∀ a, r = Ok a → keeps Q (f a)) → keeps Q (lift r ≫= f).
Proof.
  intros Hf s Hs. rewrite run_lift_bind. destruct r as [a|e]; [|done].
  by apply Hf.
Qed.

Lemma keeps_for_each {A} (Q : out_tree → Prop) (xs : list A) (body : A → M unit) :
  (∀ x, keeps Q (body x)) → keeps Q (for_each xs body).
Proof.
  intros Hbody. induction xs as [|x xs IH]; simpl.
  - apply keeps_ret.
  - apply keeps_bind; [apply Hbody|]. intros _. apply IH.
Qed.

Lemma ensures_bind_l {A B} (Q : out_tree → Prop) (m : M A) (f : A → M B) :
  ensures Q m → (∀ a, keeps Q (f a)) → ensures Q (m ≫= f).
Proof.
  intros Hm Hf s b s' (a & s1 & Hrun & Hrest)%run_bind_completed.
  specialize (Hf a s1 (Hm _ _ _ Hrun)). by rewrite Hrest in Hf.
Qed.

Lemma ensures_bind_r {A B} (Q : out_tree → Prop) (m : M A) (f : A → M B) :
  (∀ a, ensures Q (f a)) → ensures Q (m ≫= f).
Proof.
  intros Hf s b s' (a & s1 & Hrun & Hrest)%run_bind_completed.
  by eapply Hf.
Qed.

Lemma ensures_lift_bind {A B} (Q : out_tree → Prop) (r : result A)
    (f : A → M B) :
  (∀ a, r = Ok a → ensures Q (f a)) → ensures Q (lift r ≫= f).
Proof.
  intros Hf s b s' (a & Hr & Hrest)%run_lift_bind_completed.
  by eapply Hf.
Qed.

Lemma ensures_for_each {A} (Q : out_tree → Prop) (xs : list A)
    (body : A → M unit) (x : A) :
  x ∈ xs → ensures Q (body x) → (∀ y, keeps Q (body y)) →
  ensures Q (for_each xs body).
Proof.
  intros Hin Hx Hkeep. induction xs as [|y xs IH].
  - by apply elem_of_nil in Hin.
  - simpl. apply elem_of_cons in Hin as [<-|Hin].
    + apply ensures_bind_l; [done|]. intros _. by apply keeps_for_each.
    + apply ensures_bind_r. intros _. by apply IH.
Qed.

(** Two paths that differ in length, or in a component, are different. *)
Ltac path_discr :=
  let Heq := fresh "Heq" in
  simpl; unfold os_path_join; intros Heq;
  first
    [ apply (f_equal length) in Heq; rewrite ?length_app in Heq;
      simpl in Heq; lia
    | repeat match goal with
             | H : _ ++ [_] = _ ++ [_] |- _ => apply app_inj_tail in H as [H ?]
             end;
      congruence ].

Lemma string_app_inj_r (a b suffix : string) :
  a +:+ suffix = b +:+ suffix → a = b.
Proof.
  revert b. induction a as [|x a IH]; intros [|y b] Heq.
  - done.
  - apply (f_equal String.length) in Heq.
    rewrite !string_length_app in Heq. simpl in Heq. lia.
  - apply (f_equal String.length) in Heq.
    rewrite !string_length_app in Heq. simpl in Heq. lia.
  - change (String x (a +:+ suffix) = String y (b +:+ suffix)) in Heq.
    injection Heq as -> Heq. f_equal. by apply IH.
Qed.





Section published_result.
Context `{!OsPath, !Json}.
Variables (fs : node) (source_path output_path : path).
Variables (base_name model latest text : string) (document reshaped : JSON).

Local Abbreviation self := (process_data.__init__ source_path output_path).
Local Abbreviation model_dir := (os_path_join (process_data.results_dir self) model).
Local Abbreviation dst :=
  (os_path_join (os_path_join (process_data.output_results_dir self) model)
     (base_name +:+ ".json")).

Hypothesis Hlatest :
  process_data.get_latest_json fs base_name model_dir = Ok (Some latest).
Hypothesis Hread : read_file fs (os_path_join model_dir latest) = Ok text.
Hypothesis Hload : json_load text = Some document.
Hypothesis Hreshape :
  (process_data.process_json_content document false).1 = Ok reshaped.

Lemma write_result_keeps (base_name' model' : string) :
  keeps (file_is dst (json_dump false reshaped))
    (write_result fs self base_name' model').
Proof.
  unfold write_result. apply keeps_lift_bind. intros json_file Hjson.
  destruct json_file as [json_name|]; [|apply keeps_ret].
  destruct (truthy _); [|apply keeps_ret].
  apply keeps_bind; [apply keeps_makedirs|]. intros _.
  apply keeps_lift_bind. intros text' Hread'.
  apply keeps_lift_bind. intros document' Hload'.
  apply keeps_lift_bind. intros reshaped' Hreshape'.
  apply keeps_write_file. simpl. unfold os_path_join. intros Heq.
  apply app_inj_tail in Heq as [Heq Hbase%string_app_inj_r].
  apply app_inj_tail in Heq as [_ Hmodel]. subst base_name' model'.
  rewrite Hlatest in Hjson. injection Hjson as <-.
  rewrite Hread in Hread'. injection Hread' as <-.
  unfold load_json in Hload'. rewrite Hload in Hload'. injection Hload' as <-.
  rewrite Hreshape in Hreshape'. by injection Hreshape' as <-.
Qed.

Lemma write_result_ensures :
  latest ≠ EmptyString →
  ensures (file_is dst (json_dump false reshaped))
    (write_result fs self base_name model).
Proof.
  intros Hne%String.eqb_neq. unfold write_result.
  apply ensures_lift_bind. intros json_file Hjson.
  rewrite Hlatest in Hjson. injection Hjson as <-.
  unfold truthy. rewrite Hne. simpl negb. cbv iota.
  apply ensures_bind_r. intros _.
  apply ensures_lift_bind. intros text' Hread'.
  rewrite Hread in Hread'. injection Hread' as <-.
  apply ensures_lift_bind. intros document' Hload'.
  unfold load_json in Hload'. rewrite Hload in Hload'. injection Hload' as <-.
  apply ensures_lift_bind. intros reshaped' Hreshape'.
  rewrite Hreshape in Hreshape'. injection Hreshape' as <-.
  intros s a s' Hs. injection Hs as _ <-.
  unfold file_is. simpl. apply lookup_insert_eq.
Qed.

Lemma publish_image_keeps_result (models : list string) (image : string) :
  keeps (file_is dst (json_dump false reshaped))
    (publish_image fs self models image).
Proof.
  unfold publish_image. apply keeps_bind.
  { unfold copy2. apply keeps_lift_bind. intros ? _.
    apply keeps_write_file. path_discr. }
  intros _. apply keeps_lift_bind. intros keyword_json _. apply keeps_bind.
  - unfold write_keyword. destruct keyword_json; [|apply keeps_ret].
    destruct (truthy _); [|apply keeps_ret].
    do 3 (apply keeps_lift_bind; intros ? _).
    apply keeps_write_file. path_discr.
  - intros _. apply keeps_for_each. intros model'. apply write_result_keeps.
Qed.

Lemma publish_image_ensures_result (models : list string) (image : string) :
  latest ≠ EmptyString → model ∈ models → (splitext image).1 = base_name →
  ensures (file_is dst (json_dump false reshaped))
    (publish_image fs self models image).
Proof.
  intros Hne Hmodel Hbase. unfold publish_image.
  apply ensures_bind_r. intros _. apply ensures_lift_bind. intros ? _.
  apply ensures_bind_r. intros _. rewrite Hbase.
  apply (ensures_for_each _ _ _ model); [done|by apply write_result_ensures|].
  intros model'. apply write_result_keeps.
Qed.
End published_result.

(** X18. A result is published for every image and model that have one: when
    a run of [process_files] completes, and the resolver finds an artifact
    for the base name of an image in the directory of a model, that
    artifact is a file that parses, its document reshapes in model-result
    mode, and the reshaped document, printed, is the content of
    [<model>/<base name>.json] in the output results directory. *)
Theorem process_files_publishes_results `{!OsPath, !Json} (fs : node)
    (source_path output_path : path) (out out' : out_tree) (v : pyvalue)
    (models images : list string) (image model latest : string) :
  let self := process_data.__init__ source_path output_path in
  let base_name := (splitext image).1 in
  let model_dir := os_path_join (process_data.results_dir self) model in
  process_data.process_files fs self out = (Ok v, out') →
  process_data.get_models fs self = Ok models →
  process_data.get_image_files fs self = Ok images →
  image ∈ images → model ∈ models →
  process_data.get_latest_json fs base_name model_dir = Ok (Some latest) →
  latest ≠ EmptyString →
  ∃ text document reshaped,
    read_file fs (os_path_join model_dir latest) = Ok text ∧
    json_load text = Some document ∧
    (process_data.process_json_content document false).1 = Ok reshaped ∧
    files out' !! os_path_join
                    (os_path_join (process_data.output_results_dir self) model)
                    (base_name +:+ ".json")
    = Some (json_dump false reshaped).
Proof.
  intros self base_name model_dir Hrun Hmodels Himages Himage Hmodel Hlatest Hne.
  rewrite (process_files_run fs self models images out Hmodels Himages) in Hrun.
  apply run_then_ret in Hrun as [_ [[] Hloop]].
  destruct (for_each_completed _ _ image _ _ _ Hloop Himage) as (s1 & s2 & Hbody).
  unfold publish_image in Hbody.
  apply run_bind_completed in Hbody as ([] & s3 & _ & Hbody).
  apply run_lift_bind_completed in Hbody as (keyword_json & _ & Hbody).
  apply run_bind_completed in Hbody as ([] & s4 & _ & Hbody).
  destruct (for_each_completed _ _ model _ _ _ Hbody Hmodel) as (s5 & s6 & Hstep).
  unfold write_result in Hstep.
  apply run_lift_bind_completed in Hstep as (json_file & Hjson & Hstep).
  fold self base_name model_dir in Hjson. rewrite Hlatest in Hjson.
  injection Hjson as <-.
  pose proof Hne as Hne'%String.eqb_neq. unfold truthy in Hstep.
  rewrite Hne' in Hstep. simpl negb in Hstep. cbv iota in Hstep.
  apply run_bind_completed in Hstep as ([] & s7 & _ & Hstep).
  apply run_lift_bind_completed in Hstep as (text & Hread & Hstep).
  apply run_lift_bind_completed in Hstep as (document & Hload & Hstep).
  apply run_lift_bind_completed in Hstep as (reshaped & Hreshape & _).
  unfold load_json in Hload.
  destruct (json_load text) as [document'|] eqn:Hload'; [|done].
  injection Hload as ->.
  exists text, document, reshaped. split_and!; [done..|].
  change (file_is
            (os_path_join
               (os_path_join (process_data.output_results_dir self) model)
               (base_name +:+ ".json"))
            (json_dump false reshaped) out').
  eapply (ensures_for_each _ _ _ image); [exact Himage| | |exact Hloop].
  - by apply (publish_image_ensures_result fs source_path output_path
                base_name model latest text document reshaped).
  - intros image'.
    by apply (publish_image_keeps_result fs source_path output_path
                base_name model latest text document reshaped).
Qed.

Lemma process_files_publishes_results_witness :
  let self := demo_processor in
  let out' := (@process_data.process_files posixpath demo_json demo_fs self
                 empty_out).2 in
  let model_dir := os_path_join (process_data.results_dir self) "m1" in
  ∃ text document reshaped,
    read_file demo_fs (os_path_join model_dir "a_20240102.json") = Ok text ∧
    @json_load demo_json text = Some document ∧
    (process_data.process_json_content document false).1 = Ok reshaped ∧
    files out' !! os_path_join
                    (os_path_join (process_data.output_results_dir self) "m1")
                    ((@splitext posixpath "a.jpg").1 +:+ ".json")
    = Some (@json_dump demo_json false reshaped).
Proof.
  intros self out' model_dir.
  apply (@process_files_publishes_results posixpath demo_json demo_fs
           ["E:"; "ENC_analysis"; "ENC_website"; "data"]
           ["E:"; "ENC_analysis"; "ENC_website_github"]
           empty_out out' PyNone ["m1"; "m2"] ["a.jpg"; "b.png"]
           "a.jpg" "m1" "a_20240102.json").
  - vm_compute. reflexivity.
  - reflexivity.
  - reflexivity.
  - apply list_elem_of_here.
  - apply list_elem_of_here.
  - reflexivity.
  - discriminate.
Defined.

Section published_keyword.
Context `{!OsPath, !Json}.
Variables (fs : node) (source_path output_path : path).
Variables (base_name latest text : string) (document reshaped : JSON).

Local Abbreviation self := (process_data.__init__ source_path output_path).
Local Abbreviation dst :=
  (os_path_join (process_data.output_keywords_dir self) (base_name +:+ ".json")).

Hypothesis Hlatest :
  process_data.get_latest_json fs base_name (process_data.keywords_dir self)
  = Ok (Some latest).
Hypothesis Hread :
  read_file fs (os_path_join (process_data.keywords_dir self) latest) = Ok text.
Hypothesis Hload : json_load text = Some document.
Hypothesis Hreshape :
  (process_data.process_json_content document true).1 = Ok reshaped.

Lemma write_keyword_keeps (base_name' : string) (keyword_json : option string) :
  process_data.get_latest_json fs base_name' (process_data.keywords_dir self)
  = Ok keyword_json →
  keeps (file_is dst (json_dump false reshaped))
    (write_keyword fs self base_name' keyword_json).
Proof.
  intros Hjson. unfold write_keyword.
  destruct keyword_json as [keyword_file|]; [|apply keeps_ret].
  destruct (truthy _); [|apply keeps_ret].
  apply keeps_lift_bind. intros text' Hread'.
  apply keeps_lift_bind. intros document' Hload'.
  apply keeps_lift_bind. intros reshaped' Hreshape'.
  apply keeps_write_file. simpl. unfold os_path_join. intros Heq.
  apply app_inj_tail in Heq as [_ Hbase%string_app_inj_r]. subst base_name'.
  rewrite Hlatest in Hjson. injection Hjson as <-.
  rewrite Hread in Hread'. injection Hread' as <-.
  unfold load_json in Hload'. rewrite Hload in Hload'. injection Hload' as <-.
  rewrite Hreshape in Hreshape'. by injection Hreshape' as <-.
Qed.

Lemma write_keyword_ensures :
  latest ≠ EmptyString →
  ensures (file_is dst (json_dump false reshaped))
    (write_keyword fs self base_name (Some latest)).
Proof.
  intros Hne%String.eqb_neq. unfold write_keyword, truthy.
  rewrite Hne. simpl negb. cbv iota.
  apply ensures_lift_bind. intros text' Hread'.
  rewrite Hread in Hread'. injection Hread' as <-.
  apply ensures_lift_bind. intros document' Hload'.
  unfold load_json in Hload'. rewrite Hload in Hload'. injection Hload' as <-.
  apply ensures_lift_bind. intros reshaped' Hreshape'.
  rewrite Hreshape in Hreshape'. injection Hreshape' as <-.
  intros s a s' Hs. injection Hs as _ <-.
  unfold file_is. simpl. apply lookup_insert_eq.
Qed.

Lemma write_result_keeps_keyword (base_name' model' : string) :
  keeps (file_is dst (json_dump false reshaped))
    (write_result fs self base_name' model').
Proof.
  unfold write_result. apply keeps_lift_bind. intros json_file _.
  destruct json_file; [|apply keeps_ret].
  destruct (truthy _); [|apply keeps_ret].
  apply keeps_bind; [apply keeps_makedirs|]. intros _.
  do 3 (apply keeps_lift_bind; intros ? _).
  apply keeps_write_file. path_discr.
Qed.

Lemma publish_image_keeps_keyword (models : list string) (image : string) :
  keeps (file_is dst (json_dump false reshaped))
    (publish_image fs self models image).
Proof.
  unfold publish_image. apply keeps_bind.
  { unfold copy2. apply keeps_lift_bind. intros ? _.
    apply keeps_write_file. path_discr. }
  intros _. apply keeps_lift_bind. intros keyword_json Hjson. apply keeps_bind.
  - by apply write_keyword_keeps.
  - intros _. apply keeps_for_each. intros model'.
    apply write_result_keeps_keyword.
Qed.

Lemma publish_image_ensures_keyword (models : list string) (image : string) :
  latest ≠ EmptyString → (splitext image).1 = base_name →
  ensures (file_is dst (json_dump false reshaped))
    (publish_image fs self models image).
Proof.
  intros Hne Hbase. unfold publish_image.
  apply ensures_bind_r. intros _. rewrite Hbase.
  apply ensures_lift_bind. intros keyword_json Hjson.
  rewrite Hlatest in Hjson. injection Hjson as <-.
  apply ensures_bind_l; [by apply write_keyword_ensures|].
  intros _. apply keeps_for_each. intros model'.
  apply write_result_keeps_keyword.
Qed.
End published_keyword.

(** X19. An annotation is published for every image that has one: when a run
    of [process_files] completes, and the resolver finds an annotation for
    the base name of an image, that annotation is a file that parses, its
    document reshapes in annotation mode, and the reshaped document,
    printed, is the content of [<base name>.json] in the output keywords
    directory. *)
Theorem process_files_publishes_keywords `{!OsPath, !Json} (fs : node)
    (source_path output_path : path) (out out' : out_tree) (v : pyvalue)
    (images : list string) (image latest : string) :
  let self := process_data.__init__ source_path output_path in
  let base_name := (splitext image).1 in
  process_data.process_files fs self out = (Ok v, out') →
  process_data.get_image_files fs self = Ok images →
  image ∈ images →
  process_data.get_latest_json fs base_name (process_data.keywords_dir self)
  = Ok (Some latest) →
  latest ≠ EmptyString →
  ∃ text document reshaped,
    read_file fs (os_path_join (process_data.keywords_dir self) latest)
    = Ok text ∧
    json_load text = Some document ∧
    (process_data.process_json_content document true).1 = Ok reshaped ∧
    files out' !! os_path_join (process_data.output_keywords_dir self)
                    (base_name +:+ ".json")
    = Some (json_dump false reshaped).
Proof.
  intros self base_name Hrun Himages Himage Hlatest Hne.
  destruct (process_data.get_models fs self) as [models|] eqn:Hmodels.
  2:{ rewrite process_files_steps, run_lift_bind, Hmodels in Hrun. done. }
  rewrite (process_files_run fs self models images out Hmodels Himages) in Hrun.
  apply run_then_ret in Hrun as [_ [[] Hloop]].
  destruct (for_each_completed _ _ image _ _ _ Hloop Himage) as (s1 & s2 & Hbody).
  unfold publish_image in Hbody.
  apply run_bind_completed in Hbody as ([] & s3 & _ & Hbody).
  apply run_lift_bind_completed in Hbody as (keyword_json & Hjson & Hbody).
  fold self base_name in Hjson. rewrite Hlatest in Hjson. injection Hjson as <-.
  apply run_bind_completed in Hbody as ([] & s4 & Hstep & _).
  pose proof Hne as Hne'%String.eqb_neq. unfold write_keyword, truthy in Hstep.
  rewrite Hne' in Hstep. simpl negb in Hstep. cbv iota in Hstep.
  apply run_lift_bind_completed in Hstep as (text & Hread & Hstep).
  apply run_lift_bind_completed in Hstep as (document & Hload & Hstep).
  apply run_lift_bind_completed in Hstep as (reshaped & Hreshape & _).
  unfold load_json in Hload.
  destruct (json_load text) as [document'|] eqn:Hload'; [|done].
  injection Hload as ->.
  exists text, document, reshaped. split_and!; [done..|].
  change (file_is
            (os_path_join (process_data.output_keywords_dir self)
               (base_name +:+ ".json"))
            (json_dump false reshaped) out').
  eapply (ensures_for_each _ _ _ image); [exact Himage| | |exact Hloop].
  - by apply (publish_image_ensures_keyword fs source_path output_path
                base_name latest text document reshaped).
  - intros image'.
    by apply (publish_image_keeps_keyword fs source_path output_path
                base_name latest text document reshaped).
Qed.

Lemma process_files_publishes_keywords_witness :
  let self := demo_processor in
  let out' := (@process_data.process_files posixpath demo_json demo_fs self
                 empty_out).2 in
  ∃ text document reshaped,
    read_file demo_fs
      (os_path_join (process_data.keywords_dir self) "a_2024.json") = Ok text ∧
    @json_load demo_json text = Some document ∧
    (process_data.process_json_content document true).1 = Ok reshaped ∧
    files out' !! os_path_join (process_data.output_keywords_dir self)
                    ((@splitext posixpath "a.jpg").1 +:+ ".json")
    = Some (@json_dump demo_json false reshaped).
Proof.
  intros self out'.
  apply (@process_files_publishes_keywords posixpath demo_json demo_fs
           ["E:"; "ENC_analysis"; "ENC_website"; "data"]
           ["E:"; "ENC_analysis"; "ENC_website_github"]
           empty_out out' PyNone ["a.jpg"; "b.png"] "a.jpg" "a_2024.json").
  - vm_compute. reflexivity.
  - reflexivity.
  - apply list_elem_of_here.
  - reflexivity.
  - discriminate.
Defined.

(** Case analysis on the truth of the resolved name in the goal. *)
Ltac case_truthy H :=
  match goal with
  | |- context [truthy ?x] => destruct (truthy x) eqn:H
  end.

(** X20. Absence is skipped silently. Where the resolver finds no annotation
    for a base name, the run leaves [<base name>.json] of the output
    keywords directory as it was; where it finds no result for a base
    name in the directory of a model, the run leaves
    [<model>/<base name>.json] of the output results directory as it
    was. *)
Theorem process_files_skips_absent `{!OsPath, !Json} (fs : node)
    (source_path output_path : path) (out : out_tree) (base_name : string) :
  let self := process_data.__init__ source_path output_path in
  let out' := (process_data.process_files fs self out).2 in
  (∀ r,
     process_data.get_latest_json fs base_name (process_data.keywords_dir self)
     = Ok r →
     truthy r = false →
     files out' !! os_path_join (process_data.output_keywords_dir self)
                     (base_name +:+ ".json")
     = files out !! os_path_join (process_data.output_keywords_dir self)
                      (base_name +:+ ".json")) ∧
  (∀ model r,
     process_data.get_latest_json fs base_name
       (os_path_join (process_data.results_dir self) model) = Ok r →
     truthy r = false →
     files out' !! os_path_join
                     (os_path_join (process_data.output_results_dir self) model)
                     (base_name +:+ ".json")
     = files out !! os_path_join
                      (os_path_join (process_data.output_results_dir self) model)
                      (base_name +:+ ".json")).
Proof.
  intros self out'.
  assert (Hrun : ∀ p,
    p ≠ os_path_join (process_data.output_data_dir self) "models.json" →
    p ≠ os_path_join (process_data.output_data_dir self) "files.json" →
    (∀ models images,
       preserves_file p (for_each images (publish_image fs self models))) →
    files out' !! p = files out !! p).
  { intros p Hp1 Hp2 Hloop. subst out'. rewrite process_files_steps.
    rewrite run_lift_bind.
    destruct (process_data.get_models fs self) as [models|]; [|done].
    rewrite run_lift_bind.
    destruct (process_data.get_image_files fs self) as [images|]; [|done].
    rewrite !run_write_file_bind.
    assert (Hrest : preserves_file p
              (for_each images (publish_image fs self models);; mret PyNone)).
    { apply preserves_file_bind; [apply Hloop|].
      intros _. apply preserves_file_ret. }
    rewrite Hrest. simpl. by rewrite !lookup_insert_ne. }
  split.
  - intros r Hr Hfalse. apply Hrun; [path_discr|path_discr|].
    intros models images. apply preserves_file_for_each. intros image.
    unfold publish_image. apply preserves_file_bind.
    { apply preserves_file_copy2. path_discr. }
    intros _. apply preserves_file_lift_bind. intros keyword_json Hjson.
    apply preserves_file_bind.
    + unfold write_keyword.
      destruct keyword_json as [keyword_file|]; [|apply preserves_file_ret].
      case_truthy Htrue; [|apply preserves_file_ret].
      do 3 (apply preserves_file_lift_bind; intros ? _).
      apply preserves_file_write_file. simpl. unfold os_path_join. intros Heq.
      apply app_inj_tail in Heq as [_ Hbase%string_app_inj_r].
      rewrite Hbase, Hr in Hjson. injection Hjson as ->. congruence.
    + intros _. apply preserves_file_for_each. intros model.
      unfold write_result. apply preserves_file_lift_bind. intros json_file _.
      destruct json_file; [|apply preserves_file_ret].
      case_truthy Htrue; [|apply preserves_file_ret].
      apply preserves_file_bind; [apply preserves_file_makedirs|]. intros _.
      do 3 (apply preserves_file_lift_bind; intros ? _).
      apply preserves_file_write_file. path_discr.
  - intros model r Hr Hfalse. apply Hrun; [path_discr|path_discr|].
    intros models images. apply preserves_file_for_each. intros image.
    unfold publish_image. apply preserves_file_bind.
    { apply preserves_file_copy2. path_discr. }
    intros _. apply preserves_file_lift_bind. intros keyword_json _.
    apply preserves_file_bind.
    + unfold write_keyword.
      destruct keyword_json as [keyword_file|]; [|apply preserves_file_ret].
      case_truthy Htrue; [|apply preserves_file_ret].
      do 3 (apply preserves_file_lift_bind; intros ? _).
      apply preserves_file_write_file. path_discr.
    + intros _. apply preserves_file_for_each. intros model'.
      unfold write_result. apply preserves_file_lift_bind. intros json_file Hjson.
      destruct json_file as [json_name|]; [|apply preserves_file_ret].
      case_truthy Htrue; [|apply preserves_file_ret].
      apply preserves_file_bind; [apply preserves_file_makedirs|]. intros _.
      do 3 (apply preserves_file_lift_bind; intros ? _).
      apply preserves_file_write_file. simpl. unfold os_path_join. intros Heq.
      apply app_inj_tail in Heq as [Heq Hbase%string_app_inj_r].
      apply app_inj_tail in Heq as [_ Hmodel].
      rewrite Hbase, Hmodel, Hr in Hjson. injection Hjson as ->. congruence.
Qed.

Lemma process_files_skips_absent_witness :
  let self := demo_processor in
  let out' := (@process_data.process_files posixpath demo_json demo_fs self
                 empty_out).2 in
  files out' !! os_path_join (process_data.output_keywords_dir self) "b.json"
  = files empty_out
      !! os_path_join (process_data.output_keywords_dir self) "b.json" ∧
  files out' !! os_path_join
                  (os_path_join (process_data.output_results_dir self) "m2")
                  "a.json"
  = files empty_out
      !! os_path_join (os_path_join (process_data.output_results_dir self) "m2")
           "a.json".
Proof.
  intros self out'.
  destruct (@process_files_skips_absent posixpath demo_json demo_fs
              ["E:"; "ENC_analysis"; "ENC_website"; "data"]
              ["E:"; "ENC_analysis"; "ENC_website_github"] empty_out "b")
    as [Hkeyword _].
  destruct (@process_files_skips_absent posixpath demo_json demo_fs
              ["E:"; "ENC_analysis"; "ENC_website"; "data"]
              ["E:"; "ENC_analysis"; "ENC_website_github"] empty_out "a")
    as [_ Hresult].
  split.
  - apply (Hkeyword None); reflexivity.
  - apply (Hresult "m2" None); reflexivity.
Defined.


Lemma keeps_dir_write_file (d p : path) (content : string) :
  keeps (fun s => d ∈ dirs s) (write_file p content).
Proof. by intros s. Qed.

Lemma keeps_dir_makedirs (d p : path) :
  keeps (fun s => d ∈ dirs s) (makedirs p).
Proof. intros s Hs. simpl. apply elem_of_union. by right. Qed.

Lemma keeps_dir_write_result `{!OsPath, !Json} (fs : node)
    (self : process_data.WebsiteDataProcessor) (d : path)
    (base_name model : string) :
  keeps (fun s => d ∈ dirs s) (write_result fs self base_name model).
Proof.
  unfold write_result. apply keeps_lift_bind. intros json_file _.
  destruct json_file; [|apply keeps_ret].
  case_truthy Htrue; [|apply keeps_ret].
  apply keeps_bind; [apply keeps_dir_makedirs|]. intros _.
  do 3 (apply keeps_lift_bind; intros ? _). apply keeps_dir_write_file.
Qed.

Lemma keeps_dir_publish_image `{!OsPath, !Json} (fs : node)
    (self : process_data.WebsiteDataProcessor) (d : path)
    (models : list string) (image : string) :
  keeps (fun s => d ∈ dirs s) (publish_image fs self models image).
Proof.
  unfold publish_image. apply keeps_bind.
  { unfold copy2. apply keeps_lift_bind. intros ? _. apply keeps_dir_write_file. }
  intros _. apply keeps_lift_bind. intros keyword_json _. apply keeps_bind.
  - unfold write_keyword. destruct keyword_json; [|apply keeps_ret].
    case_truthy Htrue; [|apply keeps_ret].
    do 3 (apply keeps_lift_bind; intros ? _). apply keeps_dir_write_file.
  - intros _. apply keeps_for_each. intros model.
    apply keeps_dir_write_result.
Qed.

(** X22. The output directory of a model is made on first use: when a run of
    [process_files] completes, every model that has an artifact for the
    base name of some image has its directory, and the directories on the
    way to it, in the output tree. *)
Theorem process_files_makes_model_directory `{!OsPath, !Json} (fs : node)
    (self : process_data.WebsiteDataProcessor) (out out' : out_tree)
    (v : pyvalue) (models images : list string) (image model latest : string)
    (d : path) :
  process_data.process_files fs self out = (Ok v, out') →
  process_data.get_models fs self = Ok models →
  process_data.get_image_files fs self = Ok images →
  image ∈ images → model ∈ models →
  process_data.get_latest_json fs (splitext image).1
    (os_path_join (process_data.results_dir self) model) = Ok (Some latest) →
  latest ≠ EmptyString →
  d ≠ [] →
  d `prefix_of` os_path_join (process_data.output_results_dir self) model →
  d ∈ dirs out'.
Proof.
  intros Hrun Hmodels Himages Himage Hmodel Hlatest Hne%String.eqb_neq Hd Hpre.
  rewrite (process_files_run fs self models images out Hmodels Himages) in Hrun.
  apply run_then_ret in Hrun as [_ [[] Hloop]].
  eapply (ensures_for_each (fun s => d ∈ dirs s) _ _ image);
    [exact Himage| | |exact Hloop].
  - unfold publish_image. apply ensures_bind_r. intros _.
    apply ensures_lift_bind. intros ? _. apply ensures_bind_r. intros _.
    apply (ensures_for_each _ _ _ model); [done| |].
    + unfold write_result. apply ensures_lift_bind. intros json_file Hjson.
      rewrite Hlatest in Hjson. injection Hjson as <-.
      unfold truthy. rewrite Hne. simpl negb. cbv iota.
      apply ensures_bind_l.
      * intros s0 u s0' Hs. injection Hs as _ <-. simpl.
        apply elem_of_union. left.
        by apply elem_of_list_to_set, elem_of_ancestors_and_self.
      * intros _. do 3 (apply keeps_lift_bind; intros ? _).
        apply keeps_dir_write_file.
    + intros model'. apply keeps_dir_write_result.
  - intros image'. apply keeps_dir_publish_image.
Qed.

Lemma process_files_makes_model_directory_witness :
  let self := demo_processor in
  let out' := (@process_data.process_files posixpath demo_json demo_fs self
                 empty_out).2 in
  os_path_join (process_data.output_results_dir self) "m1" ∈ dirs out'.
Proof.
  intros self out'.
  apply (@process_files_makes_model_directory posixpath demo_json demo_fs self
           empty_out out' PyNone ["m1"; "m2"] ["a.jpg"; "b.png"]
           "a.jpg" "m1" "a_20240102.json").
  - vm_compute. reflexivity.
  - reflexivity.
  - reflexivity.
  - apply list_elem_of_here.
  - apply list_elem_of_here.
  - reflexivity.
  - discriminate.
  - discriminate.
  - done.
Defined.
